(** * EC2 instance metadata client: operations of [ec2metadata/api_ops.go]

    A shallow embedding of the query functions of the vendored
    aws-sdk-go-v2 [ec2metadata] package ([GetMetadata], [GetUserData],
    [GetDynamicData], [GetInstanceIdentityDocument], [IAMInfo], [Region],
    [Available], [suffixPath]) and of the two records they decode, together
    with the properties its specification states about them.

    What [api_ops.go] calls is embedded beside it:
    - the packages [path], [encoding/json] and [time] of the Go standard
      library, after the library's own algorithms;
    - the packages [aws] and [awserr] of the SDK, which hold the request
      engine: the transport is a parameter of the client, and what the
      engine does around it follows the specification's contract for the
      external request engine.

    Go strings are byte strings: they are [string] here, one [ascii] per
    byte.  A Go [error] value is [option error], [None] being [nil]. *)

From Stdlib Require Import Bool Arith ZArith List Ascii String Lia Permutation.
Import ListNotations.

Open Scope string_scope.
Open Scope nat_scope.

Set Warnings "-register-all".

(** ** Byte strings *)

(** [s[i]] for an index the caller has checked to be in range. *)
Definition byteAt (s : string) (i : nat) : ascii :=
  match String.get i s with
  | Some c => c
  | None => Ascii.zero
  end.

Definition slash : ascii := "/"%char.
Definition dquote : ascii := "034"%char.
Definition dot : ascii := "."%char.

(** [strings.HasSuffix(s, "/")]. *)
Definition endsWithSlash (s : string) : bool :=
  match String.length s with
  | O => false
  | S k => Ascii.eqb (byteAt s k) slash
  end.

(** [strings.HasPrefix]. *)
Definition HasPrefix (s p : string) : bool := String.prefix p s.

(** [strings.Join(elem, sep)]. *)
Fixpoint strings_Join (elem : list string) (sep : string) : string :=
  match elem with
  | [] => ""
  | [e] => e
  | e :: rest => e ++ sep ++ strings_Join rest sep
  end.

(** ** Package [path] of the Go standard library *)

Module path.

(** The [lazybuf] of [path.Clean]: the bytes [buf[0..w)] written so far,
    kept as a stack with the byte written last on top.  [w] is the length
    of the stack, [append] pushes, [w--] pops, and [index(w)] read right
    after a [w--] is the byte that was just popped. *)
Definition lazybuf := list ascii.

Definition w (out : lazybuf) : nat := List.length out.
Definition append (out : lazybuf) (c : ascii) : lazybuf := c :: out.
Definition lazybuf_string (out : lazybuf) : string :=
  string_of_list_ascii (rev out).

(** The [..] case when [out.w > dotdot]:
    [out.w--; for out.w > dotdot && out.index(out.w) != '/' { out.w-- }]. *)
Fixpoint backtrack (out : lazybuf) (dotdot : nat) : lazybuf :=
  match out with
  | [] => []
  | c :: rest =>
      if (dotdot <? w rest) && negb (Ascii.eqb c slash)
      then backtrack rest dotdot
      else rest
  end.

(** [for ; r < n && path[r] != '/'; r++ { out.append(path[r]) }] *)
Fixpoint copyElement (fuel : nat) (p : string) (n r : nat) (out : lazybuf)
  : nat * lazybuf :=
  match fuel with
  | O => (r, out)
  | S fuel' =>
      if (r <? n) && negb (Ascii.eqb (byteAt p r) slash)
      then copyElement fuel' p n (S r) (append out (byteAt p r))
      else (r, out)
  end.

(** The main loop [for r < n { switch { ... } }] of [Clean].  Every
    iteration advances [r], so [n - r] iterations are enough
    ([cleanLoop_fuel] below). *)
Fixpoint cleanLoop (fuel : nat) (p : string) (n : nat) (rooted : bool)
         (r dotdot : nat) (out : lazybuf) : lazybuf :=
  match fuel with
  | O => out
  | S fuel' =>
      if negb (r <? n) then out
      else if Ascii.eqb (byteAt p r) slash then
        (* empty path element *)
        cleanLoop fuel' p n rooted (r + 1) dotdot out
      else if Ascii.eqb (byteAt p r) dot
              && ((r + 1 =? n) || Ascii.eqb (byteAt p (r + 1)) slash) then
        (* . element *)
        cleanLoop fuel' p n rooted (r + 1) dotdot out
      else if Ascii.eqb (byteAt p r) dot
              && Ascii.eqb (byteAt p (r + 1)) dot
              && ((r + 2 =? n) || Ascii.eqb (byteAt p (r + 2)) slash) then
        (* .. element: remove to last / *)
        if dotdot <? w out then
          (* can backtrack *)
          cleanLoop fuel' p n rooted (r + 2) dotdot (backtrack out dotdot)
        else if negb rooted then
          (* cannot backtrack, but not rooted, so append .. element *)
          let out1 := if 0 <? w out then append out slash else out in
          let out2 := append (append out1 dot) dot in
          cleanLoop fuel' p n rooted (r + 2) (w out2) out2
        else
          cleanLoop fuel' p n rooted (r + 2) dotdot out
      else
        (* real path element: add slash if needed, copy element *)
        let out1 :=
          if (rooted && negb (w out =? 1)) || (negb rooted && negb (w out =? 0))
          then append out slash else out in
        let '(r', out2) := copyElement (n - r) p n r out1 in
        cleanLoop fuel' p n rooted r' dotdot out2
  end.

(** [path.Clean]. *)
Definition Clean (p : string) : string :=
  if String.eqb p "" then "."
  else
    let rooted := Ascii.eqb (byteAt p 0) slash in
    let n := String.length p in
    let out := if rooted then append [] slash else [] in
    let r := if rooted then 1 else 0 in
    let dotdot := r in
    let out' := cleanLoop (n - r) p n rooted r dotdot out in
    (* Turn empty string into "." *)
    if w out' =? 0 then "." else lazybuf_string out'.

(** [path.Join]: the elements from the first non-empty one on, joined
    with slashes and cleaned; the empty string when all are empty. *)
Fixpoint Join (elem : list string) : string :=
  match elem with
  | [] => ""
  | e :: rest =>
      if negb (String.eqb e "") then Clean (strings_Join elem "/")
      else Join rest
  end.

End path.

(** ** [suffixPath] *)

Definition suffixPath (base add : string) : string :=
  let reqPath := path.Join [base; add] in
  if negb (String.length add =? 0)
     && Ascii.eqb (byteAt add (String.length add - 1)) slash
  then reqPath ++ "/"
  else reqPath.

(** ** Package [awserr] *)

Module awserr.

(** Modelled from the spec: package [awserr] is not under src/.  The
    named error kinds are "simple tagged wrappers around an optional
    underlying cause": [New code message origErr] is the value of
    [awserr.New(code, message, origErr)], and [errorString] stands for the
    errors of the collaborators (transport, JSON decoder, time parser),
    which this layer never inspects. *)
Inductive error : Type :=
| errorString (text : string)
| New (code message : string) (origErr : option error).

(** [Code()], for the errors built by [awserr.New]. *)
Definition Code (e : error) : option string :=
  match e with
  | errorString _ => None
  | New code _ _ => Some code
  end.

End awserr.

Definition error : Type := awserr.error.

(** [http.StatusNotFound]. *)
Definition http_StatusNotFound : Z := 404%Z.

(** ** The request engine: package [aws] and the client *)

(** Modelled from the spec: [metadataOutput], the output holder with its
    string content field, is declared outside src/. *)
Record metadataOutput : Type := { Content : string }.

Module aws.

(** Modelled from the spec: the operation descriptor (name, HTTP method,
    path) of package [aws], declared outside src/. *)
Record Operation : Type :=
  { Name : string; HTTPMethod : string; HTTPPath : string }.

(** [http.Response]; only the status code is read by this package. *)
Record Response : Type := { StatusCode : Z }.

(** Modelled from the spec: the fields of [aws.Request] that the
    operations and their hooks touch.  The handler lists are kept beside
    the request ([Handlers]) and not inside it. *)
Record Request : Type :=
  { Op : Operation;
    HTTPResponse : Response;
    Error : option error;
    Data : metadataOutput }.

(** Modelled from the spec: a hook on the request pipeline, a function
    that may rewrite the request it is handed, and the one list of hooks
    this package pushes on. *)
Definition Handler : Type := Request -> Request.

Record Handlers : Type := { UnmarshalError : list Handler }.

(** Modelled from the spec: [HandlerList.PushBack] registers a hook after
    those already there. *)
Definition PushBack (l : list Handler) (f : Handler) : list Handler :=
  l ++ [f].

(** Modelled from the spec: [HandlerList.Run], the hooks in order, each on
    the request the previous one left. *)
Definition Run (l : list Handler) (r : Request) : Request :=
  fold_left (fun acc f => f acc) l r.

(** Modelled from the spec: what the transport and the client's own
    handlers make of one operation.  Either no HTTP response is obtained
    and the call fails with [err]; or there is a response, with its raw
    status code and body and the generic error the engine derived from it
    ([None] when the engine accepts the response, [Some] when it rejects
    it, as it does for a status that is not a success). *)
Inductive Exchange : Type :=
| Unanswered (err : error)
| Answered (status : Z) (body : string) (err : option error).

Definition withError (r : Request) (e : option error) : Request :=
  {| Op := Op r; HTTPResponse := HTTPResponse r; Error := e; Data := Data r |}.

Definition withResponse (r : Request) (status : Z) : Request :=
  {| Op := Op r; HTTPResponse := {| StatusCode := status |};
     Error := Error r; Data := Data r |}.

Definition withContent (r : Request) (body : string) : Request :=
  {| Op := Op r; HTTPResponse := HTTPResponse r; Error := Error r;
     Data := {| Content := body |} |}.

End aws.

(** Modelled from the spec: the client, declared outside src/, as the
    external request engine it is configured with. *)
Record Client : Type := { roundTrip : aws.Operation -> aws.Exchange }.

(** Modelled from the spec: [c.NewRequest(op, nil, output)], a request for
    [op] that writes to [output], with no hook of this package registered
    yet (the client's own handlers are part of [roundTrip]). *)
Definition NewRequest (c : Client) (op : aws.Operation) (output : metadataOutput)
  : aws.Request * aws.Handlers :=
  ({| aws.Op := op; aws.HTTPResponse := {| aws.StatusCode := 0%Z |};
      aws.Error := None; aws.Data := output |},
   {| aws.UnmarshalError := [] |}).

(** Modelled from the spec: [Request.Send] of the engine.  It performs the
    call; on success it populates the output holder's content field; on a
    response the engine rejects, the registered [UnmarshalError] hooks may
    rewrite the resulting error, seeing the raw status code, before it is
    returned.  The Go method returns [r.Error]; here the whole request is
    returned and the caller reads [aws.Error] and [aws.Data] from it. *)
Definition Send (c : Client) (req : aws.Request) (h : aws.Handlers) : aws.Request :=
  match roundTrip c (aws.Op req) with
  | aws.Unanswered e => aws.withError req (Some e)
  | aws.Answered status body None =>
      aws.withContent (aws.withResponse req status) body
  | aws.Answered status body (Some e) =>
      aws.Run (aws.UnmarshalError h)
              (aws.withError (aws.withResponse req status) (Some e))
  end.

(** ** Panics *)

(** A Go call either returns or panics at run time. *)
Inductive outcome (A : Type) : Type :=
| Returned (a : A)
| Panicked (msg : string).
Arguments Returned {A} a.
Arguments Panicked {A} msg.

(** The slice expression [s[:hi]] on a string, with [hi] a Go [int]:
    a run-time panic unless [0 <= hi <= len(s)]. *)
Definition sliceTo (s : string) (hi : Z) : outcome string :=
  if ((0 <=? hi) && (hi <=? Z.of_nat (String.length s)))%Z
  then Returned (String.substring 0 (Z.to_nat hi) s)
  else Panicked "slice bounds out of range".

(** ** Package [time] *)

Module time.

(** [time.Time] as the wall-clock reading and zone offset that an
    RFC 3339 timestamp carries.  The zero value is
    January 1, year 1, 00:00:00 UTC. *)
Record Time : Type :=
  { Year : Z; Month : Z; Day : Z;
    Hour : Z; Minute : Z; Second : Z; Nanosecond : Z;
    ZoneOffset : Z (* seconds east of UTC *) }.

Definition zero : Time :=
  {| Year := 1; Month := 1; Day := 1; Hour := 0; Minute := 0; Second := 0;
     Nanosecond := 0; ZoneOffset := 0 |}%Z.

Definition isDigit (c : ascii) : bool :=
  (48 <=? nat_of_ascii c) && (nat_of_ascii c <=? 57).

Definition digitVal (c : ascii) : Z := Z.of_nat (nat_of_ascii c - 48).

(** Exactly [k] decimal digits. *)
Fixpoint fixedNum (k : nat) (acc : Z) (s : list ascii) : option (Z * list ascii) :=
  match k with
  | O => Some (acc, s)
  | S k' =>
      match s with
      | c :: rest =>
          if isDigit c then fixedNum k' (10 * acc + digitVal c)%Z rest else None
      | [] => None
      end
  end.

(** A fraction of a second: the digits after the point, scaled to
    nanoseconds; digits past the ninth are dropped. *)
Fixpoint fraction (s : list ascii) (place : Z) (acc : Z) : Z * list ascii :=
  match s with
  | c :: rest =>
      if isDigit c
      then fraction rest (place / 10)%Z (acc + digitVal c * place)%Z
      else (acc, s)
  | [] => (acc, s)
  end.

Definition isLeap (y : Z) : bool :=
  ((y mod 4 =? 0) && (negb (y mod 100 =? 0) || (y mod 400 =? 0)))%Z.

Definition daysIn (m y : Z) : Z :=
  (if m =? 2 then (if isLeap y then 29 else 28)
   else if (m =? 4) || (m =? 6) || (m =? 9) || (m =? 11) then 30
   else 31)%Z.

Definition expect (c : ascii) (s : list ascii) : option (list ascii) :=
  match s with
  | c' :: rest => if Ascii.eqb c c' then Some rest else None
  | [] => None
  end.

(** The zone of an RFC 3339 timestamp: [Z] or a signed [hh:mm]. *)
Definition parseZone (s : list ascii) : option (Z * list ascii) :=
  match s with
  | c :: rest =>
      if Ascii.eqb c "Z" then Some (0%Z, rest)
      else if Ascii.eqb c "+" || Ascii.eqb c "-" then
        match fixedNum 2 0 rest with
        | Some (hh, rest1) =>
            match expect ":" rest1 with
            | Some rest2 =>
                match fixedNum 2 0 rest2 with
                | Some (mm, rest3) =>
                    if ((hh <? 24) && (mm <? 60))%Z then
                      let off := (hh * 3600 + mm * 60)%Z in
                      Some (if Ascii.eqb c "-" then (- off)%Z else off, rest3)
                    else None
                | None => None
                end
            | None => None
            end
        | None => None
        end
      else None
  | [] => None
  end.

Definition bind {A B : Type} (o : option A) (f : A -> option B) : option B :=
  match o with
  | Some a => f a
  | None => None
  end.

(** [time.Parse(time.RFC3339, s)]: a timestamp of the RFC 3339 form
    [YYYY-MM-DDTHH:MM:SS[.fraction](Z|+hh:mm|-hh:mm)], every field of its
    full width and in range, is read; any other text is an error. *)
Definition ParseRFC3339 (s : string) : option Time :=
  bind (fixedNum 4 0 (list_ascii_of_string s)) (fun '(y, s1) =>
  bind (expect "-" s1) (fun s2 =>
  bind (fixedNum 2 0 s2) (fun '(mo, s3) =>
  bind (expect "-" s3) (fun s4 =>
  bind (fixedNum 2 0 s4) (fun '(d, s5) =>
  bind (expect "T" s5) (fun s6 =>
  bind (fixedNum 2 0 s6) (fun '(h, s7) =>
  bind (expect ":" s7) (fun s8 =>
  bind (fixedNum 2 0 s8) (fun '(mi, s9) =>
  bind (expect ":" s9) (fun s10 =>
  bind (fixedNum 2 0 s10) (fun '(sec, s11) =>
  let '(ns, s12) :=
    match s11 with
    | c :: c' :: rest =>
        if Ascii.eqb c "." && isDigit c'
        then fraction (c' :: rest) 100000000 0
        else (0%Z, s11)
    | _ => (0%Z, s11)
    end in
  bind (parseZone s12) (fun '(off, s13) =>
  match s13 with
  | [] =>
      if ((1 <=? mo) && (mo <=? 12) && (1 <=? d) && (d <=? daysIn mo y)
          && (h <? 24) && (mi <? 60) && (sec <? 60))%Z
      then Some {| Year := y; Month := mo; Day := d; Hour := h; Minute := mi;
                   Second := sec; Nanosecond := ns; ZoneOffset := off |}
      else None
  | _ :: _ => None
  end)))))))))))).

End time.

(** ** Package [encoding/json] *)

Module json.

(** A JSON text, once scanned.  A number keeps its literal. *)
Inductive value : Type :=
| JNull
| JBool (b : bool)
| JNumber (literal : string)
| JString (s : string)
| JArray (elems : list value)
| JObject (members : list (string * value)).

Definition isSpace (c : ascii) : bool :=
  Ascii.eqb c " " || Ascii.eqb c "009" || Ascii.eqb c "010" || Ascii.eqb c "013".

Fixpoint skipSpace (s : list ascii) : list ascii :=
  match s with
  | c :: rest => if isSpace c then skipSpace rest else s
  | [] => []
  end.

(** *** String literals *)

Definition hexVal (c : ascii) : option N :=
  let n := N_of_ascii c in
  if ((48 <=? n) && (n <=? 57))%N then Some (n - 48)%N
  else if ((97 <=? n) && (n <=? 102))%N then Some (n - 87)%N
  else if ((65 <=? n) && (n <=? 70))%N then Some (n - 55)%N
  else None.

Definition hex4 (a b c d : ascii) : option N :=
  match hexVal a, hexVal b, hexVal c, hexVal d with
  | Some x, Some y, Some z, Some t => Some (((x * 16 + y) * 16 + z) * 16 + t)%N
  | _, _, _, _ => None
  end.

(** What a string literal is made of: a byte, or the UTF-16 code unit of
    a [\uXXXX] escape. *)
Inductive piece : Type :=
| Byte (c : ascii)
| Unit (u : N).

(** The pieces of a string literal up to its closing quote, read after
    the opening quote. *)
Fixpoint scanPieces (s : list ascii) : option (list piece * list ascii) :=
  match s with
  | [] => None
  | c :: rest =>
      if Ascii.eqb c dquote then Some ([], rest)
      else if Ascii.eqb c "\" then
        match rest with
        | [] => None
        | e :: rest1 =>
            let simple (b : ascii) :=
              match scanPieces rest1 with
              | Some (ps, rest2) => Some (Byte b :: ps, rest2)
              | None => None
              end in
            if Ascii.eqb e dquote then simple dquote
            else if Ascii.eqb e "\" then simple "\"%char
            else if Ascii.eqb e "/" then simple "/"%char
            else if Ascii.eqb e "b" then simple "008"%char
            else if Ascii.eqb e "f" then simple "012"%char
            else if Ascii.eqb e "n" then simple "010"%char
            else if Ascii.eqb e "r" then simple "013"%char
            else if Ascii.eqb e "t" then simple "009"%char
            else if Ascii.eqb e "u" then
              match rest1 with
              | h1 :: h2 :: h3 :: h4 :: rest2 =>
                  match hex4 h1 h2 h3 h4, scanPieces rest2 with
                  | Some u, Some (ps, rest3) => Some (Unit u :: ps, rest3)
                  | _, _ => None
                  end
              | _ => None
              end
            else None
        end
      else if (N_of_ascii c <? 32)%N then None
      else
        match scanPieces rest with
        | Some (ps, rest1) => Some (Byte c :: ps, rest1)
        | None => None
        end
  end.

Definition byteOfN (n : N) : ascii := ascii_of_N n.

(** UTF-8 encoding of a code point. *)
Definition utf8 (cp : N) : list ascii :=
  (if cp <? 128 then [byteOfN cp]
   else if cp <? 2048 then
     [byteOfN (192 + cp / 64); byteOfN (128 + cp mod 64)]
   else if cp <? 65536 then
     [byteOfN (224 + cp / 4096); byteOfN (128 + (cp / 64) mod 64);
      byteOfN (128 + cp mod 64)]
   else
     [byteOfN (240 + cp / 262144); byteOfN (128 + (cp / 4096) mod 64);
      byteOfN (128 + (cp / 64) mod 64); byteOfN (128 + cp mod 64)])%N.

Definition isHighSurrogate (u : N) : bool := ((55296 <=? u) && (u <? 56320))%N.
Definition isLowSurrogate (u : N) : bool := ((56320 <=? u) && (u <? 57344))%N.

(** U+FFFD, which replaces an unpaired surrogate. *)
Definition replacementChar : N := 65533%N.

(** The bytes of a string literal: escapes resolved, a surrogate pair
    combined into one code point. *)
Fixpoint unquotePieces (ps : list piece) : list ascii :=
  match ps with
  | [] => []
  | Byte c :: rest => c :: unquotePieces rest
  | Unit u :: rest =>
      if isHighSurrogate u then
        match rest with
        | Unit u2 :: rest2 =>
            if isLowSurrogate u2
            then utf8 (65536 + (u - 55296) * 1024 + (u2 - 56320))%N
                   ++ unquotePieces rest2
            else utf8 replacementChar ++ unquotePieces rest
        | _ => utf8 replacementChar ++ unquotePieces rest
        end
      else if isLowSurrogate u then utf8 replacementChar ++ unquotePieces rest
      else utf8 u ++ unquotePieces rest
  end.

Definition scanString (s : list ascii) : option (string * list ascii) :=
  match scanPieces s with
  | Some (ps, rest) => Some (string_of_list_ascii (unquotePieces ps), rest)
  | None => None
  end.

(** *** Numbers *)

Fixpoint spanDigits (s : list ascii) : list ascii * list ascii :=
  match s with
  | c :: rest =>
      if time.isDigit c
      then let '(ds, rest') := spanDigits rest in (c :: ds, rest')
      else ([], s)
  | [] => ([], [])
  end.

(** The integer part: a lone [0], or a non-zero digit and more digits. *)
Definition scanInt (s : list ascii) : option (list ascii * list ascii) :=
  match s with
  | c :: rest =>
      if Ascii.eqb c "0" then Some ([c], rest)
      else if time.isDigit c
           then let '(ds, rest') := spanDigits rest in Some (c :: ds, rest')
           else None
  | [] => None
  end.

Definition scanFrac (s : list ascii) : option (list ascii * list ascii) :=
  match s with
  | c :: rest =>
      if Ascii.eqb c "." then
        match spanDigits rest with
        | ([], _) => None
        | (ds, rest') => Some (c :: ds, rest')
        end
      else Some ([], s)
  | [] => Some ([], s)
  end.

Definition scanExp (s : list ascii) : option (list ascii * list ascii) :=
  match s with
  | c :: rest =>
      if Ascii.eqb c "e" || Ascii.eqb c "E" then
        let '(sign, rest1) :=
          match rest with
          | sg :: rest' =>
              if Ascii.eqb sg "+" || Ascii.eqb sg "-" then ([sg], rest')
              else ([], rest)
          | [] => ([], rest)
          end in
        match spanDigits rest1 with
        | ([], _) => None
        | (ds, rest2) => Some (c :: sign ++ ds, rest2)
        end
      else Some ([], s)
  | [] => Some ([], s)
  end.

Definition scanNumber (s : list ascii) : option (string * list ascii) :=
  let '(minus, s1) :=
    match s with
    | c :: rest => if Ascii.eqb c "-" then ([c], rest) else ([], s)
    | [] => ([], s)
    end in
  match scanInt s1 with
  | Some (i, s2) =>
      match scanFrac s2 with
      | Some (f, s3) =>
          match scanExp s3 with
          | Some (e, s4) =>
              Some (string_of_list_ascii (minus ++ i ++ f ++ e), s4)
          | None => None
          end
      | None => None
      end
  | None => None
  end.

(** *** Values *)

Definition expectWord (word : string) (s : list ascii) : option (list ascii) :=
  let wl := list_ascii_of_string word in
  if list_eq_dec ascii_dec (firstn (List.length wl) s) wl
  then Some (skipn (List.length wl) s)
  else None.

(** One JSON value at the head of the input, and the input left after
    it.  [None] is a syntax error.  [fuel] bounds the depth of the calls:
    a value needs no more of it than its text has bytes. *)
Fixpoint scanValue (fuel : nat) (s : list ascii) {struct fuel}
  : option (value * list ascii) :=
  match fuel with
  | O => None
  | S fuel' =>
      match skipSpace s with
      | [] => None
      | c :: rest =>
          if Ascii.eqb c "{" then
            match skipSpace rest with
            | c' :: rest' =>
                if Ascii.eqb c' "}" then Some (JObject [], rest')
                else
                  match scanMembers fuel' (c' :: rest') with
                  | Some (ms, rest2) => Some (JObject ms, rest2)
                  | None => None
                  end
            | [] => None
            end
          else if Ascii.eqb c "[" then
            match skipSpace rest with
            | c' :: rest' =>
                if Ascii.eqb c' "]" then Some (JArray [], rest')
                else
                  match scanElems fuel' (c' :: rest') with
                  | Some (vs, rest2) => Some (JArray vs, rest2)
                  | None => None
                  end
            | [] => None
            end
          else if Ascii.eqb c dquote then
            match scanString rest with
            | Some (str, rest') => Some (JString str, rest')
            | None => None
            end
          else if Ascii.eqb c "t" then
            option_map (fun r => (JBool true, r)) (expectWord "true" (c :: rest))
          else if Ascii.eqb c "f" then
            option_map (fun r => (JBool false, r)) (expectWord "false" (c :: rest))
          else if Ascii.eqb c "n" then
            option_map (fun r => (JNull, r)) (expectWord "null" (c :: rest))
          else
            match scanNumber (c :: rest) with
            | Some (lit, rest') => Some (JNumber lit, rest')
            | None => None
            end
      end
  end

(** The elements of an array after [[], up to and including []]. *)
with scanElems (fuel : nat) (s : list ascii) {struct fuel}
  : option (list value * list ascii) :=
  match fuel with
  | O => None
  | S fuel' =>
      match scanValue fuel' s with
      | Some (v, rest) =>
          match skipSpace rest with
          | c :: rest' =>
              if Ascii.eqb c "]" then Some ([v], rest')
              else if Ascii.eqb c "," then
                match scanElems fuel' rest' with
                | Some (vs, rest2) => Some (v :: vs, rest2)
                | None => None
                end
              else None
          | [] => None
          end
      | None => None
      end
  end

(** The members of an object after [{], up to and including [}]. *)
with scanMembers (fuel : nat) (s : list ascii) {struct fuel}
  : option (list (string * value) * list ascii) :=
  match fuel with
  | O => None
  | S fuel' =>
      match skipSpace s with
      | q :: rest =>
          if Ascii.eqb q dquote then
            match scanString rest with
            | Some (key, rest1) =>
                match skipSpace rest1 with
                | colon :: rest2 =>
                    if Ascii.eqb colon ":" then
                      match scanValue fuel' rest2 with
                      | Some (v, rest3) =>
                          match skipSpace rest3 with
                          | c :: rest4 =>
                              if Ascii.eqb c "}" then Some ([(key, v)], rest4)
                              else if Ascii.eqb c "," then
                                match scanMembers fuel' rest4 with
                                | Some (ms, rest5) => Some ((key, v) :: ms, rest5)
                                | None => None
                                end
                              else None
                          | [] => None
                          end
                      | None => None
                      end
                    else None
                | [] => None
                end
            | None => None
            end
          else None
      | [] => None
      end
  end.

(** The next value of the stream, as [Decoder.Decode] reads it: what
    follows the value is left unread. *)
Definition readValue (text : string) : option value :=
  let s := list_ascii_of_string text in
  option_map fst (scanValue (S (List.length s)) s).

(** *** Decoding into a struct *)

(** [b & caseMask], with [caseMask = ^byte(0x20)]. *)
Definition caseMask (b : ascii) : N := N.land (N_of_ascii b) 223.

Definition isUpperN (n : N) : bool := ((65 <=? n) && (n <=? 90))%N.

(** [simpleLetterEqualFold] and [asciiEqualFold] of [encoding/json]. *)
Fixpoint simpleLetterEqualFold (s t : list ascii) : bool :=
  match s, t with
  | [], [] => true
  | sb :: s', tb :: t' =>
      (caseMask sb =? caseMask tb)%N && simpleLetterEqualFold s' t'
  | _, _ => false
  end.

Fixpoint asciiEqualFold (s t : list ascii) : bool :=
  match s, t with
  | [], [] => true
  | sb :: s', tb :: t' =>
      (if Ascii.eqb sb tb then true
       else isUpperN (caseMask sb) && (caseMask sb =? caseMask tb)%N)
      && asciiEqualFold s' t'
  | _, _ => false
  end.

(** [equalFoldRight]: as [asciiEqualFold], and the Kelvin sign (U+212A)
    folds to [k], the long s (U+017F) to [s]. *)
Fixpoint equalFoldRight (s t : list ascii) : bool :=
  match s with
  | [] => match t with [] => true | _ :: _ => false end
  | sb :: s' =>
      match t with
      | [] => false
      | tb :: t' =>
          if (N_of_ascii tb <? 128)%N then
            (if Ascii.eqb sb tb then true
             else isUpperN (caseMask sb) && (caseMask sb =? caseMask tb)%N)
            && equalFoldRight s' t'
          else if (caseMask sb =? 83)%N then
            match t with
            | b1 :: b2 :: t'' =>
                Ascii.eqb b1 "197" && Ascii.eqb b2 "191" && equalFoldRight s' t''
            | _ => false
            end
          else if (caseMask sb =? 75)%N then
            match t with
            | b1 :: b2 :: b3 :: t'' =>
                Ascii.eqb b1 "226" && Ascii.eqb b2 "132" && Ascii.eqb b3 "170"
                && equalFoldRight s' t''
            | _ => false
            end
          else false
      end
  end.

(** [foldFunc]: the folding a field name gets.  The names of this
    package are plain ASCII; a name with a byte above 127, for which Go
    takes [bytes.EqualFold], matches here only itself. *)
Definition foldFunc (name : list ascii) : list ascii -> list ascii -> bool :=
  if existsb (fun b => (128 <=? N_of_ascii b)%N) name
  then (fun s t => if list_eq_dec ascii_dec s t then true else false)
  else if existsb (fun b => (caseMask b =? 75)%N || (caseMask b =? 83)%N) name
  then equalFoldRight
  else if existsb (fun b => negb (isUpperN (caseMask b))) name
  then asciiEqualFold
  else simpleLetterEqualFold.

Definition equalFold (name key : string) : bool :=
  let n := list_ascii_of_string name in
  foldFunc n n (list_ascii_of_string key).

Definition kindName (v : value) : string :=
  match v with
  | JNull => "null"
  | JBool _ => "bool"
  | JNumber _ => "number"
  | JString _ => "string"
  | JArray _ => "array"
  | JObject _ => "object"
  end.

(** An [UnmarshalTypeError].  The text describes the error; no caller
    reads it. *)
Definition typeError (v : value) (goType : string) : error :=
  awserr.errorString
    ("json: cannot unmarshal " ++ kindName v ++ " into Go value of type " ++ goType).

(** What storing one value did: nothing to report, a type error that is
    saved while decoding goes on, or an error that ends decoding. *)
Inductive verdict : Type :=
| Stored
| Mismatch (e : error)
| Fatal (e : error).

(** A JSON value into a Go [string]: a string is stored, [null] leaves
    the old value, anything else is a type error. *)
Definition storeString (v : value) (old : string) : string * verdict :=
  match v with
  | JString s => (s, Stored)
  | JNull => (old, Stored)
  | _ => (old, Mismatch (typeError v "string"))
  end.

Definition firstMismatch (a b : verdict) : verdict :=
  match a with
  | Stored => b
  | _ => a
  end.

(** The elements of an array into a fresh [[]string]. *)
Fixpoint storeElems (vs : list value) : list string * verdict :=
  match vs with
  | [] => ([], Stored)
  | v :: rest =>
      let '(s, r1) := storeString v "" in
      let '(ss, r2) := storeElems rest in
      (s :: ss, firstMismatch r1 r2)
  end.

(** A JSON value into a Go [[]string]: an array gives a slice of its
    elements, [null] the nil slice, anything else is a type error.  (The
    slice a field held before is not consulted; Go would reuse its
    elements, which shows only when a key occurs twice.) *)
Definition storeStrings (v : value) (old : list string) : list string * verdict :=
  match v with
  | JArray vs => storeElems vs
  | JNull => ([], Stored)
  | _ => (old, Mismatch (typeError v "[]string"))
  end.

(** [Time.UnmarshalJSON]: [null] is a no-op, a string is parsed as an
    RFC 3339 timestamp, and a failure ends decoding. *)
Definition storeTime (v : value) (old : time.Time) : time.Time * verdict :=
  match v with
  | JNull => (old, Stored)
  | JString s =>
      match time.ParseRFC3339 s with
      | Some t => (t, Stored)
      | None => (old, Fatal (awserr.errorString ("parsing time " ++ s)))
      end
  | _ => (old, Fatal (awserr.errorString "parsing time: not a JSON string"))
  end.

(** A field of a struct of type [T] as the decoder sees it: the name it
    goes by in JSON (the [json] tag, or the Go name when there is none),
    and how a value is stored into it. *)
Inductive kind : Type := GoString | GoStrings | GoTime.

Record field (T : Type) : Type :=
  { name : string;
    type : kind;
    store : value -> T -> T * verdict }.
Arguments name {T} f.
Arguments type {T} f.
Arguments store {T} f v t.

Definition stringField {T : Type} (nm : string)
           (get : T -> string) (set : T -> string -> T) : field T :=
  {| name := nm; type := GoString;
     store := fun v t => let '(x, r) := storeString v (get t) in (set t x, r) |}.

Definition stringsField {T : Type} (nm : string)
           (get : T -> list string) (set : T -> list string -> T) : field T :=
  {| name := nm; type := GoStrings;
     store := fun v t => let '(x, r) := storeStrings v (get t) in (set t x, r) |}.

Definition timeField {T : Type} (nm : string)
           (get : T -> time.Time) (set : T -> time.Time -> T) : field T :=
  {| name := nm; type := GoTime;
     store := fun v t => let '(x, r) := storeTime v (get t) in (set t x, r) |}.

Section Struct.
Context {T : Type}.
Variable fields : list (field T).

(** The field a key selects: the first one whose name is the key;
    failing that, the first one whose name folds to the key. *)
Definition findField (key : string) : option (field T) :=
  match find (fun f => String.eqb (name f) key) fields with
  | Some f => Some f
  | None => find (fun f => equalFold (name f) key) fields
  end.

(** The members of an object, in order, into the struct.  A key that
    selects no field is skipped; the first type error is saved and
    returned at the end; a fatal error is returned at once. *)
Fixpoint decodeMembers (ms : list (string * value)) (t : T) (saved : option error)
  : T * option error :=
  match ms with
  | [] => (t, saved)
  | (key, v) :: rest =>
      match findField key with
      | None => decodeMembers rest t saved
      | Some f =>
          match store f v t with
          | (t', Stored) => decodeMembers rest t' saved
          | (t', Mismatch e) =>
              decodeMembers rest t'
                (match saved with Some _ => saved | None => Some e end)
          | (t', Fatal e) => (t', Some e)
          end
      end
  end.

(** A scanned value into the struct. *)
Definition decodeValue (goType : string) (v : value) (t : T) : T * option error :=
  match v with
  | JObject ms => decodeMembers ms t None
  | JNull => (t, None)
  | _ => (t, Some (typeError v goType))
  end.

(** [json.NewDecoder(strings.NewReader(text)).Decode(&t)]: the struct as
    decoding left it, and the error.  A text with no value in it is [EOF];
    a text that is not JSON is a syntax error, found before anything is
    stored. *)
Definition Decode (goType : string) (text : string) (t : T) : T * option error :=
  match skipSpace (list_ascii_of_string text) with
  | [] => (t, Some (awserr.errorString "EOF"))
  | _ :: _ =>
      match readValue text with
      | Some v => decodeValue goType v t
      | None => (t, Some (awserr.errorString "json: syntax error"))
      end
  end.

End Struct.

End json.

(** ** The decoded records *)

(** An [EC2IAMInfo] provides the shape for unmarshaling an IAM info from
    the metadata API. *)
Record EC2IAMInfo : Type :=
  { Code : string;
    LastUpdated : time.Time;
    InstanceProfileArn : string;
    InstanceProfileID : string }.

(** An [EC2InstanceIdentityDocument] provides the shape for unmarshaling
    an instance identity document. *)
Record EC2InstanceIdentityDocument : Type :=
  { DevpayProductCodes : list string;
    MarketplaceProductCodes : list string;
    AvailabilityZone : string;
    PrivateIP : string;
    Version : string;
    Region : string;
    InstanceID : string;
    BillingProducts : list string;
    InstanceType : string;
    AccountID : string;
    PendingTime : time.Time;
    ImageID : string;
    KernelID : string;
    RamdiskID : string;
    Architecture : string }.

(** [EC2IAMInfo{}] and [EC2InstanceIdentityDocument{}]. *)
Definition EC2IAMInfo_zero : EC2IAMInfo :=
  {| Code := ""; LastUpdated := time.zero;
     InstanceProfileArn := ""; InstanceProfileID := "" |}.

Definition EC2InstanceIdentityDocument_zero : EC2InstanceIdentityDocument :=
  {| DevpayProductCodes := []; MarketplaceProductCodes := [];
     AvailabilityZone := ""; PrivateIP := ""; Version := ""; Region := "";
     InstanceID := ""; BillingProducts := []; InstanceType := "";
     AccountID := ""; PendingTime := time.zero; ImageID := ""; KernelID := "";
     RamdiskID := ""; Architecture := "" |}.

(** Field updates, [doc.F = x]. *)

Definition set_info_Code (i : EC2IAMInfo) (x : string)
  : EC2IAMInfo :=
  {| Code := x; LastUpdated := LastUpdated i;
     InstanceProfileArn := InstanceProfileArn i;
     InstanceProfileID := InstanceProfileID i |}.

Definition set_info_LastUpdated (i : EC2IAMInfo) (x : time.Time)
  : EC2IAMInfo :=
  {| Code := Code i; LastUpdated := x;
     InstanceProfileArn := InstanceProfileArn i;
     InstanceProfileID := InstanceProfileID i |}.

Definition set_info_InstanceProfileArn (i : EC2IAMInfo) (x : string)
  : EC2IAMInfo :=
  {| Code := Code i; LastUpdated := LastUpdated i; InstanceProfileArn := x;
     InstanceProfileID := InstanceProfileID i |}.

Definition set_info_InstanceProfileID (i : EC2IAMInfo) (x : string)
  : EC2IAMInfo :=
  {| Code := Code i; LastUpdated := LastUpdated i;
     InstanceProfileArn := InstanceProfileArn i; InstanceProfileID := x |}.

Definition set_DevpayProductCodes (d : EC2InstanceIdentityDocument) (x : list string)
  : EC2InstanceIdentityDocument :=
  {| DevpayProductCodes := x;
     MarketplaceProductCodes := MarketplaceProductCodes d;
     AvailabilityZone := AvailabilityZone d; PrivateIP := PrivateIP d;
     Version := Version d; Region := Region d; InstanceID := InstanceID d;
     BillingProducts := BillingProducts d; InstanceType := InstanceType d;
     AccountID := AccountID d; PendingTime := PendingTime d;
     ImageID := ImageID d; KernelID := KernelID d; RamdiskID := RamdiskID d;
     Architecture := Architecture d |}.

Definition set_MarketplaceProductCodes (d : EC2InstanceIdentityDocument) (x : list string)
  : EC2InstanceIdentityDocument :=
  {| DevpayProductCodes := DevpayProductCodes d;
     MarketplaceProductCodes := x; AvailabilityZone := AvailabilityZone d;
     PrivateIP := PrivateIP d; Version := Version d; Region := Region d;
     InstanceID := InstanceID d; BillingProducts := BillingProducts d;
     InstanceType := InstanceType d; AccountID := AccountID d;
     PendingTime := PendingTime d; ImageID := ImageID d;
     KernelID := KernelID d; RamdiskID := RamdiskID d;
     Architecture := Architecture d |}.

Definition set_AvailabilityZone (d : EC2InstanceIdentityDocument) (x : string)
  : EC2InstanceIdentityDocument :=
  {| DevpayProductCodes := DevpayProductCodes d;
     MarketplaceProductCodes := MarketplaceProductCodes d;
     AvailabilityZone := x; PrivateIP := PrivateIP d; Version := Version d;
     Region := Region d; InstanceID := InstanceID d;
     BillingProducts := BillingProducts d; InstanceType := InstanceType d;
     AccountID := AccountID d; PendingTime := PendingTime d;
     ImageID := ImageID d; KernelID := KernelID d; RamdiskID := RamdiskID d;
     Architecture := Architecture d |}.

Definition set_PrivateIP (d : EC2InstanceIdentityDocument) (x : string)
  : EC2InstanceIdentityDocument :=
  {| DevpayProductCodes := DevpayProductCodes d;
     MarketplaceProductCodes := MarketplaceProductCodes d;
     AvailabilityZone := AvailabilityZone d; PrivateIP := x;
     Version := Version d; Region := Region d; InstanceID := InstanceID d;
     BillingProducts := BillingProducts d; InstanceType := InstanceType d;
     AccountID := AccountID d; PendingTime := PendingTime d;
     ImageID := ImageID d; KernelID := KernelID d; RamdiskID := RamdiskID d;
     Architecture := Architecture d |}.

Definition set_Version (d : EC2InstanceIdentityDocument) (x : string)
  : EC2InstanceIdentityDocument :=
  {| DevpayProductCodes := DevpayProductCodes d;
     MarketplaceProductCodes := MarketplaceProductCodes d;
     AvailabilityZone := AvailabilityZone d; PrivateIP := PrivateIP d;
     Version := x; Region := Region d; InstanceID := InstanceID d;
     BillingProducts := BillingProducts d; InstanceType := InstanceType d;
     AccountID := AccountID d; PendingTime := PendingTime d;
     ImageID := ImageID d; KernelID := KernelID d; RamdiskID := RamdiskID d;
     Architecture := Architecture d |}.

Definition set_Region (d : EC2InstanceIdentityDocument) (x : string)
  : EC2InstanceIdentityDocument :=
  {| DevpayProductCodes := DevpayProductCodes d;
     MarketplaceProductCodes := MarketplaceProductCodes d;
     AvailabilityZone := AvailabilityZone d; PrivateIP := PrivateIP d;
     Version := Version d; Region := x; InstanceID := InstanceID d;
     BillingProducts := BillingProducts d; InstanceType := InstanceType d;
     AccountID := AccountID d; PendingTime := PendingTime d;
     ImageID := ImageID d; KernelID := KernelID d; RamdiskID := RamdiskID d;
     Architecture := Architecture d |}.

Definition set_InstanceID (d : EC2InstanceIdentityDocument) (x : string)
  : EC2InstanceIdentityDocument :=
  {| DevpayProductCodes := DevpayProductCodes d;
     MarketplaceProductCodes := MarketplaceProductCodes d;
     AvailabilityZone := AvailabilityZone d; PrivateIP := PrivateIP d;
     Version := Version d; Region := Region d; InstanceID := x;
     BillingProducts := BillingProducts d; InstanceType := InstanceType d;
     AccountID := AccountID d; PendingTime := PendingTime d;
     ImageID := ImageID d; KernelID := KernelID d; RamdiskID := RamdiskID d;
     Architecture := Architecture d |}.

Definition set_BillingProducts (d : EC2InstanceIdentityDocument) (x : list string)
  : EC2InstanceIdentityDocument :=
  {| DevpayProductCodes := DevpayProductCodes d;
     MarketplaceProductCodes := MarketplaceProductCodes d;
     AvailabilityZone := AvailabilityZone d; PrivateIP := PrivateIP d;
     Version := Version d; Region := Region d; InstanceID := InstanceID d;
     BillingProducts := x; InstanceType := InstanceType d;
     AccountID := AccountID d; PendingTime := PendingTime d;
     ImageID := ImageID d; KernelID := KernelID d; RamdiskID := RamdiskID d;
     Architecture := Architecture d |}.

Definition set_InstanceType (d : EC2InstanceIdentityDocument) (x : string)
  : EC2InstanceIdentityDocument :=
  {| DevpayProductCodes := DevpayProductCodes d;
     MarketplaceProductCodes := MarketplaceProductCodes d;
     AvailabilityZone := AvailabilityZone d; PrivateIP := PrivateIP d;
     Version := Version d; Region := Region d; InstanceID := InstanceID d;
     BillingProducts := BillingProducts d; InstanceType := x;
     AccountID := AccountID d; PendingTime := PendingTime d;
     ImageID := ImageID d; KernelID := KernelID d; RamdiskID := RamdiskID d;
     Architecture := Architecture d |}.

Definition set_AccountID (d : EC2InstanceIdentityDocument) (x : string)
  : EC2InstanceIdentityDocument :=
  {| DevpayProductCodes := DevpayProductCodes d;
     MarketplaceProductCodes := MarketplaceProductCodes d;
     AvailabilityZone := AvailabilityZone d; PrivateIP := PrivateIP d;
     Version := Version d; Region := Region d; InstanceID := InstanceID d;
     BillingProducts := BillingProducts d; InstanceType := InstanceType d;
     AccountID := x; PendingTime := PendingTime d; ImageID := ImageID d;
     KernelID := KernelID d; RamdiskID := RamdiskID d;
     Architecture := Architecture d |}.

Definition set_PendingTime (d : EC2InstanceIdentityDocument) (x : time.Time)
  : EC2InstanceIdentityDocument :=
  {| DevpayProductCodes := DevpayProductCodes d;
     MarketplaceProductCodes := MarketplaceProductCodes d;
     AvailabilityZone := AvailabilityZone d; PrivateIP := PrivateIP d;
     Version := Version d; Region := Region d; InstanceID := InstanceID d;
     BillingProducts := BillingProducts d; InstanceType := InstanceType d;
     AccountID := AccountID d; PendingTime := x; ImageID := ImageID d;
     KernelID := KernelID d; RamdiskID := RamdiskID d;
     Architecture := Architecture d |}.

Definition set_ImageID (d : EC2InstanceIdentityDocument) (x : string)
  : EC2InstanceIdentityDocument :=
  {| DevpayProductCodes := DevpayProductCodes d;
     MarketplaceProductCodes := MarketplaceProductCodes d;
     AvailabilityZone := AvailabilityZone d; PrivateIP := PrivateIP d;
     Version := Version d; Region := Region d; InstanceID := InstanceID d;
     BillingProducts := BillingProducts d; InstanceType := InstanceType d;
     AccountID := AccountID d; PendingTime := PendingTime d; ImageID := x;
     KernelID := KernelID d; RamdiskID := RamdiskID d;
     Architecture := Architecture d |}.

Definition set_KernelID (d : EC2InstanceIdentityDocument) (x : string)
  : EC2InstanceIdentityDocument :=
  {| DevpayProductCodes := DevpayProductCodes d;
     MarketplaceProductCodes := MarketplaceProductCodes d;
     AvailabilityZone := AvailabilityZone d; PrivateIP := PrivateIP d;
     Version := Version d; Region := Region d; InstanceID := InstanceID d;
     BillingProducts := BillingProducts d; InstanceType := InstanceType d;
     AccountID := AccountID d; PendingTime := PendingTime d;
     ImageID := ImageID d; KernelID := x; RamdiskID := RamdiskID d;
     Architecture := Architecture d |}.

Definition set_RamdiskID (d : EC2InstanceIdentityDocument) (x : string)
  : EC2InstanceIdentityDocument :=
  {| DevpayProductCodes := DevpayProductCodes d;
     MarketplaceProductCodes := MarketplaceProductCodes d;
     AvailabilityZone := AvailabilityZone d; PrivateIP := PrivateIP d;
     Version := Version d; Region := Region d; InstanceID := InstanceID d;
     BillingProducts := BillingProducts d; InstanceType := InstanceType d;
     AccountID := AccountID d; PendingTime := PendingTime d;
     ImageID := ImageID d; KernelID := KernelID d; RamdiskID := x;
     Architecture := Architecture d |}.

Definition set_Architecture (d : EC2InstanceIdentityDocument) (x : string)
  : EC2InstanceIdentityDocument :=
  {| DevpayProductCodes := DevpayProductCodes d;
     MarketplaceProductCodes := MarketplaceProductCodes d;
     AvailabilityZone := AvailabilityZone d; PrivateIP := PrivateIP d;
     Version := Version d; Region := Region d; InstanceID := InstanceID d;
     BillingProducts := BillingProducts d; InstanceType := InstanceType d;
     AccountID := AccountID d; PendingTime := PendingTime d;
     ImageID := ImageID d; KernelID := KernelID d; RamdiskID := RamdiskID d;
     Architecture := x |}.

(** The fields of [EC2IAMInfo] as the decoder sees them: the struct has no
    [json] tags, so each goes by its Go name. *)
Definition EC2IAMInfo_fields : list (json.field EC2IAMInfo) :=
  [ json.stringField "Code" Code set_info_Code;
    json.timeField "LastUpdated" LastUpdated set_info_LastUpdated;
    json.stringField "InstanceProfileArn" InstanceProfileArn set_info_InstanceProfileArn;
    json.stringField "InstanceProfileID" InstanceProfileID set_info_InstanceProfileID ].

(** The fields of [EC2InstanceIdentityDocument], each under its [json] tag,
    in the order of the declaration. *)
Definition EC2InstanceIdentityDocument_fields : list (json.field EC2InstanceIdentityDocument) :=
  [ json.stringsField "devpayProductCodes" DevpayProductCodes set_DevpayProductCodes;
    json.stringsField "marketplaceProductCodes" MarketplaceProductCodes set_MarketplaceProductCodes;
    json.stringField "availabilityZone" AvailabilityZone set_AvailabilityZone;
    json.stringField "privateIp" PrivateIP set_PrivateIP;
    json.stringField "version" Version set_Version;
    json.stringField "region" Region set_Region;
    json.stringField "instanceId" InstanceID set_InstanceID;
    json.stringsField "billingProducts" BillingProducts set_BillingProducts;
    json.stringField "instanceType" InstanceType set_InstanceType;
    json.stringField "accountId" AccountID set_AccountID;
    json.timeField "pendingTime" PendingTime set_PendingTime;
    json.stringField "imageId" ImageID set_ImageID;
    json.stringField "kernelId" KernelID set_KernelID;
    json.stringField "ramdiskId" RamdiskID set_RamdiskID;
    json.stringField "architecture" Architecture set_Architecture ].

(** The decoder of the Go standard library at the two record types. *)
Definition json_Decode_IAMInfo (text : string) (info : EC2IAMInfo)
  : EC2IAMInfo * option error :=
  json.Decode EC2IAMInfo_fields "ec2metadata.EC2IAMInfo" text info.

Definition json_Decode_Document (text : string) (doc : EC2InstanceIdentityDocument)
  : EC2InstanceIdentityDocument * option error :=
  json.Decode EC2InstanceIdentityDocument_fields
              "ec2metadata.EC2InstanceIdentityDocument" text doc.

(** ** The operations of [api_ops.go] *)

Module Client.
Section Operations.

(** The JSON decoder at the two record types: [decode text v] is the
    record that [Decode(&v)] leaves and the error it returns. *)
Variable decodeDocument :
  string -> EC2InstanceIdentityDocument -> EC2InstanceIdentityDocument * option error.
Variable decodeIAMInfo :
  string -> EC2IAMInfo -> EC2IAMInfo * option error.

Variable c : Client.

(** [GetMetadata] uses the path provided to request information from the
    EC2 instance metadata service.  [output.Content] is read once [Send]
    has written it. *)
Definition GetMetadata (p : string) : string * option error :=
  let op := {| aws.Name := "GetMetadata";
               aws.HTTPMethod := "GET";
               aws.HTTPPath := suffixPath "/meta-data" p |} in
  let output := {| Content := "" |} in
  let '(req, handlers) := NewRequest c op output in
  let sent := Send c req handlers in
  (Content (aws.Data sent), aws.Error sent).

(** The hook [GetUserData] pushes on [UnmarshalError]. *)
Definition userDataNotFound : aws.Handler :=
  fun r =>
    if (aws.StatusCode (aws.HTTPResponse r) =? http_StatusNotFound)%Z
    then aws.withError r
           (Some (awserr.New "NotFoundError" "user-data not found" (aws.Error r)))
    else r.

(** [GetUserData] returns the userdata that was configured for the
    service. *)
Definition GetUserData : string * option error :=
  let op := {| aws.Name := "GetUserData";
               aws.HTTPMethod := "GET";
               aws.HTTPPath := "/user-data" |} in
  let output := {| Content := "" |} in
  let '(req, handlers) := NewRequest c op output in
  let handlers :=
    {| aws.UnmarshalError :=
         aws.PushBack (aws.UnmarshalError handlers) userDataNotFound |} in
  let sent := Send c req handlers in
  (Content (aws.Data sent), aws.Error sent).

(** [GetDynamicData] uses the path provided to request information from
    the EC2 instance metadata service for dynamic data. *)
Definition GetDynamicData (p : string) : string * option error :=
  let op := {| aws.Name := "GetDynamicData";
               aws.HTTPMethod := "GET";
               aws.HTTPPath := suffixPath "/dynamic" p |} in
  let output := {| Content := "" |} in
  let '(req, handlers) := NewRequest c op output in
  let sent := Send c req handlers in
  (Content (aws.Data sent), aws.Error sent).

(** [GetInstanceIdentityDocument] retrieves an identity document
    describing an instance. *)
Definition GetInstanceIdentityDocument
  : EC2InstanceIdentityDocument * option error :=
  match GetDynamicData "instance-identity/document" with
  | (_, Some err) =>
      (EC2InstanceIdentityDocument_zero,
       Some (awserr.New "EC2MetadataRequestError"
               "failed to get EC2 instance identity document" (Some err)))
  | (resp, None) =>
      match decodeDocument resp EC2InstanceIdentityDocument_zero with
      | (_, Some err) =>
          (EC2InstanceIdentityDocument_zero,
           Some (awserr.New "SerializationError"
                   "failed to decode EC2 instance identity document" (Some err)))
      | (doc, None) => (doc, None)
      end
  end.

(** [fmt.Sprintf("failed to get EC2 IAM Info (%s)", code)]. *)
Definition iamInfoErrMsg (code : string) : string :=
  "failed to get EC2 IAM Info (" ++ code ++ ")".

(** [IAMInfo] retrieves IAM info from the metadata API. *)
Definition IAMInfo : EC2IAMInfo * option error :=
  match GetMetadata "iam/info" with
  | (_, Some err) =>
      (EC2IAMInfo_zero,
       Some (awserr.New "EC2MetadataRequestError"
               "failed to get EC2 IAM info" (Some err)))
  | (resp, None) =>
      match decodeIAMInfo resp EC2IAMInfo_zero with
      | (_, Some err) =>
          (EC2IAMInfo_zero,
           Some (awserr.New "SerializationError"
                   "failed to decode EC2 IAM info" (Some err)))
      | (info, None) =>
          if negb (String.eqb (Code info) "Success") then
            let errMsg := iamInfoErrMsg (Code info) in
            (EC2IAMInfo_zero, Some (awserr.New "EC2MetadataError" errMsg None))
          else (info, None)
      end
  end.

(** [Region] returns the region the instance is running in: the
    availability zone without its suffix, [resp[:len(resp)-1]]. *)
Definition Region : outcome (string * option error) :=
  match GetMetadata "placement/availability-zone" with
  | (_, Some err) => Returned ("", Some err)
  | (resp, None) =>
      match sliceTo resp (Z.of_nat (String.length resp) - 1) with
      | Returned region => Returned (region, None)
      | Panicked msg => Panicked msg
      end
  end.

(** [Available] returns if the application has access to the EC2
    Instance Metadata service. *)
Definition Available : bool :=
  match GetMetadata "instance-id" with
  | (_, Some _) => false
  | (_, None) => true
  end.

End Operations.
End Client.

(** ** Test doubles *)

(** A JSON text written with apostrophes for its double quotes. *)
Definition jsonText (s : string) : string :=
  string_of_list_ascii
    (map (fun ch => if Ascii.eqb ch "'" then dquote else ch) (list_ascii_of_string s)).

(** A metadata service that answers every path of [table] with status 200
    and the body given, and any other path with status [status] and the
    generic error of the engine. *)
Definition stubService (table : list (string * string)) (status : Z) : Client :=
  {| roundTrip := fun op =>
       match find (fun kv => String.eqb (fst kv) (aws.HTTPPath op)) table with
       | Some (_, body) => aws.Answered 200 body None
       | None =>
           aws.Answered status ""
             (Some (awserr.New "EC2MetadataError"
                      "failed to make EC2Metadata request" None))
       end |}.

(** An engine that never gets a response. *)
Definition unreachableService : Client :=
  {| roundTrip := fun _ =>
       aws.Unanswered (awserr.errorString "dial tcp 169.254.169.254:80: i/o timeout") |}.

Definition sampleDocumentText : string :=
  jsonText
    "{
  'devpayProductCodes' : ['dp-1', 'dp-2'],
  'marketplaceProductCodes' : ['mp-1'],
  'availabilityZone' : 'us-east-1d',
  'privateIp' : '10.158.112.84',
  'version' : '2010-08-31',
  'region' : 'us-east-1',
  'instanceId' : 'i-1234567890abcdef0',
  'billingProducts' : ['bp-6ba54002'],
  'instanceType' : 't1.micro',
  'accountId' : '123456789012',
  'pendingTime' : '2015-11-19T16:32:11Z',
  'imageId' : 'ami-5fb8c835',
  'kernelId' : 'aki-919dcaf8',
  'ramdiskId' : 'ari-8a3b5cd2',
  'architecture' : 'x86_64'
}".

Definition sampleIAMInfoText (code : string) : string :=
  jsonText ("{
  'Code' : '" ++ code ++ "',
  'LastUpdated' : '2016-03-17T12:27:32Z',
  'InstanceProfileArn' : 'arn:aws:iam::123456789012:instance-profile/my-instance-profile',
  'InstanceProfileId' : 'AIPAABCDEFGHIJKLMN123'
}").

(** ** Shapes the statements speak of *)

(** The buffer of [Clean] on a rooted path, in stack order: the root slash,
    then path elements of at least one byte each, one slash before every
    element but the first. *)
Inductive rootedBuf : path.lazybuf -> Prop :=
| rootedBuf_root : rootedBuf [slash]
| rootedBuf_byte (ch : ascii) (out : path.lazybuf) :
    ch <> slash -> rootedBuf out -> rootedBuf (ch :: out)
| rootedBuf_sep (ch : ascii) (out : path.lazybuf) :
    ch <> slash -> out <> [slash] -> rootedBuf out ->
    rootedBuf (ch :: slash :: out).

(** [s] has two separators in a row. *)
Definition doubledSlash (s : string) : Prop :=
  exists pre post : string, s = (pre ++ "//" ++ post)%string.

(** The descriptor of a [GET] operation. *)
Definition getOp (opName httpPath : string) : aws.Operation :=
  {| aws.Name := opName; aws.HTTPMethod := "GET"; aws.HTTPPath := httpPath |}.

(** What a fetch with no hook of its own hands back for an exchange: the
    body and no error when the engine accepts the response, else no content
    and the engine's error. *)
Definition fetched (x : aws.Exchange) : string * option error :=
  match x with
  | aws.Answered _ body None => (body, None)
  | aws.Answered _ _ (Some e) => ("", Some e)
  | aws.Unanswered e => ("", Some e)
  end.

(** [strings.Contains(s, sub)], as a proposition. *)
Definition Contains (s sub : string) : Prop :=
  exists pre post : string, s = (pre ++ sub ++ post)%string.

(** A service that answers [GET /meta-data/iam/info] with an IAM-info
    payload of the given code, and one that answers
    [GET /dynamic/instance-identity/document] with the given text. *)
Definition iamInfoService (code : string) : Client :=
  stubService [("/meta-data/iam/info", sampleIAMInfoText code)] 404.

Definition documentService (text : string) : Client :=
  stubService [("/dynamic/instance-identity/document", text)] 404.

(** A document whose [version] is a number: the decoder stores the members
    of the right type and reports the mismatch. *)
Definition mistypedDocumentText : string :=
  jsonText "{'region':'us-east-1','version':5,'imageId':'ami-5fb8c835'}".









(** ** Path segments *)

(** [p[r:]], the input [Clean] has still to read at index [r]. *)
Fixpoint dropBytes (r : nat) (s : string) : string :=
  match r, s with
  | O, _ => s
  | S r', String _ s' => dropBytes r' s'
  | S _, EmptyString => EmptyString
  end.

(** [strings.Split(s, "/")]: the segments of [s] between its separators. *)
Fixpoint splitSlash (s : string) : list string :=
  match s with
  | EmptyString => [EmptyString]
  | String ch rest =>
      if Ascii.eqb ch slash then EmptyString :: splitSlash rest
      else match splitSlash rest with
           | seg :: segs => String ch seg :: segs
           | [] => [String ch EmptyString]
           end
  end.

(** The first segment of [s], and what follows it (nothing, or a separator
    and the rest). *)
Fixpoint segHead (s : string) : string :=
  match s with
  | EmptyString => EmptyString
  | String ch rest => if Ascii.eqb ch slash then EmptyString else String ch (segHead rest)
  end.

Fixpoint segTail (s : string) : string :=
  match s with
  | EmptyString => EmptyString
  | String ch rest => if Ascii.eqb ch slash then s else segTail rest
  end.

Fixpoint noSlash (s : string) : bool :=
  match s with
  | EmptyString => true
  | String ch rest => negb (Ascii.eqb ch slash) && noSlash rest
  end.

(** A segment that names something: not empty, not [.], not [..], and
    without a separator in it. *)
Definition isName (seg : string) : bool :=
  negb (String.eqb seg "") && negb (String.eqb seg ".")
  && negb (String.eqb seg "..") && noSlash seg.

(** A segment that moves: anything but the empty segment and [.]. *)
Definition isStep (seg : string) : bool :=
  negb (String.eqb seg "") && negb (String.eqb seg ".").

(** Walking a rooted path: the names passed so far are a stack (the last
    one on top); an empty segment and [.] stay, [..] goes up one name and
    stays at the root, a name goes down. *)
Definition walk (st : list string) (seg : string) : list string :=
  if String.eqb seg "" then st
  else if String.eqb seg "." then st
  else if String.eqb seg ".." then tl st
  else seg :: st.

Definition resolve (segs : list string) (st : list string) : list string :=
  fold_left walk segs st.

(** The rooted path of a list of names. *)
Definition rootedPath (names : list string) : string :=
  String slash (strings_Join names "/").

(** The buffer of [Clean] that holds the rooted path of a stack of names. *)
Fixpoint bufOf (st : list string) : path.lazybuf :=
  match st with
  | [] => [slash]
  | seg :: below =>
      (rev (list_ascii_of_string seg)
       ++ match below with
          | [] => [slash]
          | _ :: _ => slash :: bufOf below
          end)%list
  end.

(** The suffix has a [..] segment. *)
Definition hasDotDot (add : string) : bool :=
  existsb (fun seg => String.eqb seg "..") (splitSlash add).




(** * Properties *)

(** ** Byte strings *)

Lemma get_append_last (s : string) (ch : ascii) :
  String.get (String.length s) (s ++ String ch "") = Some ch.
Proof.
  induction s as [|a s IH]; simpl; [reflexivity | exact IH].
Qed.

Lemma length_append_one (s : string) (ch : ascii) :
  String.length (s ++ String ch "") = S (String.length s).
Proof.
  induction s as [|a s IH]; simpl; [reflexivity | now rewrite IH].
Qed.

Lemma endsWithSlash_snoc (s : string) (ch : ascii) :
  endsWithSlash (s ++ String ch "") = Ascii.eqb ch slash.
Proof.
  unfold endsWithSlash, byteAt.
  rewrite length_append_one, get_append_last. reflexivity.
Qed.

Lemma string_of_list_ascii_snoc (l : list ascii) (ch : ascii) :
  string_of_list_ascii (l ++ [ch]) = (string_of_list_ascii l ++ String ch "")%string.
Proof.
  induction l as [|a l IH]; simpl; [reflexivity | now rewrite IH].
Qed.

(** The test of [suffixPath] is [strings.HasSuffix(add, "/")]. *)
Lemma suffixPath_test (add : string) :
  negb (String.length add =? 0)
  && Ascii.eqb (byteAt add (String.length add - 1)) slash
  = endsWithSlash add.
Proof.
  unfold endsWithSlash.
  destruct (String.length add) as [|k]; simpl; [reflexivity|].
  now rewrite Nat.sub_0_r.
Qed.

Lemma suffixPath_eq (base add : string) :
  suffixPath base add =
  if endsWithSlash add then (path.Join [base; add] ++ "/")%string
  else path.Join [base; add].
Proof.
  unfold suffixPath. cbv zeta. now rewrite suffixPath_test.
Qed.

(** ** [path.Clean]: the loops run to their end *)

Lemma copyElement_ge (fuel : nat) (p : string) (n r : nat) (out : path.lazybuf) :
  r <= fst (path.copyElement fuel p n r out).
Proof.
  revert r out. induction fuel as [|fuel IH]; intros r out; simpl; [lia|].
  destruct ((r <? n) && negb (Ascii.eqb (byteAt p r) slash)); simpl; [|lia].
  specialize (IH (S r) (path.append out (byteAt p r))). lia.
Qed.

Lemma copyElement_fuel (f1 f2 : nat) (p : string) (n r : nat) (out : path.lazybuf) :
  n - r <= f1 -> n - r <= f2 ->
  path.copyElement f1 p n r out = path.copyElement f2 p n r out.
Proof.
  revert f2 r out. induction f1 as [|f1 IH]; intros f2 r out H1 H2.
  - destruct f2 as [|f2]; simpl; [reflexivity|].
    replace (r <? n) with false by (symmetry; apply Nat.ltb_ge; lia).
    reflexivity.
  - destruct f2 as [|f2]; simpl.
    + replace (r <? n) with false by (symmetry; apply Nat.ltb_ge; lia).
      reflexivity.
    + destruct ((r <? n) && negb (Ascii.eqb (byteAt p r) slash)); [|reflexivity].
      apply IH; lia.
Qed.

(** A real path element is at least one byte long. *)
Lemma copyElement_advances (p : string) (n r : nat) (out : path.lazybuf) :
  r < n -> Ascii.eqb (byteAt p r) slash = false ->
  r < fst (path.copyElement (n - r) p n r out).
Proof.
  intros Hr Hc. destruct (n - r) as [|f] eqn:E; [lia|]. simpl.
  apply Nat.ltb_lt in Hr. rewrite Hr, Hc. simpl.
  pose proof (copyElement_ge f p n (S r) (path.append out (byteAt p r))). lia.
Qed.

(** Fuel beyond [n - r] is never used: the model of the loop is the loop. *)
Lemma cleanLoop_fuel (f1 f2 : nat) (p : string) (n : nat) (rooted : bool)
      (r dotdot : nat) (out : path.lazybuf) :
  n - r <= f1 -> n - r <= f2 ->
  path.cleanLoop f1 p n rooted r dotdot out = path.cleanLoop f2 p n rooted r dotdot out.
Proof.
  revert f2 r dotdot out.
  induction f1 as [|f1 IH]; intros f2 r dotdot out H1 H2.
  - destruct f2 as [|f2]; simpl; [reflexivity|].
    replace (r <? n) with false by (symmetry; apply Nat.ltb_ge; lia).
    reflexivity.
  - destruct f2 as [|f2]; simpl.
    + replace (r <? n) with false by (symmetry; apply Nat.ltb_ge; lia).
      reflexivity.
    + destruct (r <? n) eqn:Hr; simpl; [|reflexivity].
      apply Nat.ltb_lt in Hr.
      destruct (Ascii.eqb (byteAt p r) slash) eqn:Hs; [apply IH; lia|].
      destruct (Ascii.eqb (byteAt p r) dot
                && ((r + 1 =? n) || Ascii.eqb (byteAt p (r + 1)) slash));
        [apply IH; lia|].
      destruct (Ascii.eqb (byteAt p r) dot && Ascii.eqb (byteAt p (r + 1)) dot
                && ((r + 2 =? n) || Ascii.eqb (byteAt p (r + 2)) slash)).
      * destruct (dotdot <? path.w out); [apply IH; lia|].
        destruct (negb rooted); apply IH; lia.
      * match goal with
        | |- context [path.copyElement (n - r) p n r ?o] =>
            pose proof (copyElement_advances p n r o Hr Hs) as Hadv;
            destruct (path.copyElement (n - r) p n r o) as [r' out2]
        end.
        simpl in Hadv. apply IH; lia.
Qed.

(** Rows of the table of [path.Clean] in the library's documentation and
    tests. *)
Example Clean_table :
  path.Clean "" = "."
  /\ path.Clean "abc" = "abc"
  /\ path.Clean "abc/def/" = "abc/def"
  /\ path.Clean "abc//def//ghi" = "abc/def/ghi"
  /\ path.Clean "abc/./def" = "abc/def"
  /\ path.Clean "abc/def/ghi/../jkl" = "abc/def/jkl"
  /\ path.Clean "abc/def/../../.." = ".."
  /\ path.Clean "/abc/def/../../.." = "/"
  /\ path.Clean "abc/def/../../../ghi/jkl/../../../mno" = "../../mno"
  /\ path.Clean "abc/./../def" = "def"
  /\ path.Clean "abc//./../def" = "def"
  /\ path.Clean "/../abc" = "/abc"
  /\ path.Clean "//abc" = "/abc"
  /\ path.Clean "../../abc" = "../../abc"
  /\ path.Join ["a"; "b"] = "a/b"
  /\ path.Join ["a"; ""] = "a"
  /\ path.Join [""; "b"] = "b"
  /\ path.Join ["/"; "a"] = "/a"
  /\ path.Join ["a/"; "b"] = "a/b"
  /\ path.Join [""; ""] = "".
Proof. repeat split. Qed.

(** The paths the operations of this package ask for. *)
Example suffixPath_requests :
  suffixPath "/meta-data" "instance-id" = "/meta-data/instance-id"
  /\ suffixPath "/meta-data" "iam/info" = "/meta-data/iam/info"
  /\ suffixPath "/meta-data" "placement/availability-zone"
     = "/meta-data/placement/availability-zone"
  /\ suffixPath "/dynamic" "instance-identity/document"
     = "/dynamic/instance-identity/document"
  /\ suffixPath "/meta-data" "iam/security-credentials/"
     = "/meta-data/iam/security-credentials/"
  /\ suffixPath "/meta-data" "" = "/meta-data"
  /\ suffixPath "/meta-data" "/" = "/meta-data/"
  /\ suffixPath "/meta-data" "a//b/./c/" = "/meta-data/a/b/c/".
Proof. repeat split. Qed.

(** ** [path.Clean] on a rooted path *)

Lemma rootedBuf_top (out : path.lazybuf) :
  rootedBuf out ->
  out = [slash] \/ exists ch rest, out = ch :: rest /\ ch <> slash.
Proof.
  intros H. destruct H; [now left | right; eauto | right; eauto].
Qed.

Lemma rootedBuf_w (out : path.lazybuf) : rootedBuf out -> 1 <= path.w out.
Proof. intros H. destruct H; simpl; lia. Qed.

Lemma rootedBuf_w1 (out : path.lazybuf) :
  rootedBuf out -> path.w out = 1 -> out = [slash].
Proof.
  intros H Hw. destruct H as [|ch out _ H|ch out _ _ H]; simpl in Hw.
  - reflexivity.
  - apply rootedBuf_w in H. lia.
  - lia.
Qed.

Lemma eqb_slash_false (ch : ascii) : ch <> slash -> Ascii.eqb ch slash = false.
Proof. intros H. now apply Ascii.eqb_neq. Qed.

Lemma backtrack_rooted (out : path.lazybuf) :
  rootedBuf out -> 1 < path.w out -> rootedBuf (path.backtrack out 1).
Proof.
  induction 1 as [|ch out Hch H IH|ch out Hch Hne H IH]; intros Hw.
  - simpl in Hw. lia.
  - simpl. rewrite (eqb_slash_false ch Hch). simpl.
    destruct (1 <? path.w out) eqn:E; simpl; [|exact H].
    apply IH. now apply Nat.ltb_lt.
  - pose proof (rootedBuf_w out H) as Hw1.
    simpl. rewrite (eqb_slash_false ch Hch).
    replace (1 <? S (path.w out)) with true
      by (symmetry; apply Nat.ltb_lt; lia).
    simpl. rewrite Bool.andb_false_r. exact H.
Qed.

Lemma copyElement_rooted (fuel : nat) (p : string) (n r : nat) (out : path.lazybuf) :
  rootedBuf out -> rootedBuf (snd (path.copyElement fuel p n r out)).
Proof.
  revert r out. induction fuel as [|fuel IH]; intros r out H; simpl; [exact H|].
  destruct (r <? n); simpl; [|exact H].
  destruct (Ascii.eqb (byteAt p r) slash) eqn:E; simpl; [exact H|].
  apply IH. apply rootedBuf_byte; [|exact H].
  now apply Ascii.eqb_neq.
Qed.

(** The loop of [Clean] keeps the buffer of a rooted path in shape. *)
Lemma cleanLoop_rooted (fuel : nat) (p : string) (n r : nat) (out : path.lazybuf) :
  rootedBuf out -> rootedBuf (path.cleanLoop fuel p n true r 1 out).
Proof.
  revert r out. induction fuel as [|fuel IH]; intros r out H; simpl; [exact H|].
  destruct (r <? n) eqn:Hr; simpl; [|exact H].
  destruct (Ascii.eqb (byteAt p r) slash) eqn:Hs; [now apply IH|].
  destruct (Ascii.eqb (byteAt p r) dot
            && ((r + 1 =? n) || Ascii.eqb (byteAt p (r + 1)) slash));
    [now apply IH|].
  destruct (Ascii.eqb (byteAt p r) dot && Ascii.eqb (byteAt p (r + 1)) dot
            && ((r + 2 =? n) || Ascii.eqb (byteAt p (r + 2)) slash)).
  - destruct (1 <? path.w out) eqn:Hw; [|now apply IH].
    apply IH. apply backtrack_rooted; [exact H|]. now apply Nat.ltb_lt.
  - apply Nat.ltb_lt in Hr.
    destruct (n - r) as [|f] eqn:Ef; [lia|].
    rewrite Bool.orb_false_r.
    assert (Hfirst : forall o, rootedBuf (byteAt p r :: o) ->
              rootedBuf (let '(r', out2) := path.copyElement (S f) p n r o in
                         path.cleanLoop fuel p n true r' 1 out2)).
    { intros o Ho. simpl.
      replace (r <? n) with true by (symmetry; now apply Nat.ltb_lt).
      rewrite Hs. simpl.
      pose proof (copyElement_rooted f p n (S r) (path.append o (byteAt p r)) Ho) as Hc.
      destruct (path.copyElement f p n (S r) (path.append o (byteAt p r))) as [r' out2].
      simpl in Hc. now apply IH. }
    assert (Hne : byteAt p r <> slash) by now apply Ascii.eqb_neq.
    destruct (path.w out =? 1) eqn:Hw; simpl.
    + apply Hfirst. now apply rootedBuf_byte.
    + apply Hfirst. apply rootedBuf_sep; try assumption.
      intros ->. simpl in Hw. discriminate.
Qed.

(** [Clean] of a rooted path is the text of a buffer in shape. *)
Lemma Clean_rooted (s : string) :
  exists out, rootedBuf out /\ path.Clean (String slash s) = path.lazybuf_string out.
Proof.
  unfold path.Clean. unfold slash at 1 2. simpl String.eqb. cbv iota.
  change (byteAt (String "/" s) 0) with slash.
  rewrite Ascii.eqb_refl. cbv zeta.
  set (out := path.cleanLoop _ _ _ _ _ _ _).
  assert (H : rootedBuf out) by (apply cleanLoop_rooted; constructor).
  exists out. split; [exact H|].
  pose proof (rootedBuf_w out H) as Hw.
  destruct (path.w out =? 0) eqn:E; [|reflexivity].
  apply Nat.eqb_eq in E. lia.
Qed.

(** A cleaned rooted path is the root, or does not end in a slash. *)
Lemma Clean_rooted_end (s : string) :
  path.Clean (String slash s) = "/" \/
  endsWithSlash (path.Clean (String slash s)) = false.
Proof.
  destruct (Clean_rooted s) as (out & H & ->).
  destruct (rootedBuf_top out H) as [-> | (ch & rest & -> & Hch)].
  - now left.
  - right. unfold path.lazybuf_string. simpl rev.
    rewrite string_of_list_ascii_snoc, endsWithSlash_snoc.
    now apply Ascii.eqb_neq.
Qed.

Lemma list_ascii_of_string_app (a b : string) :
  list_ascii_of_string (a ++ b)
  = (list_ascii_of_string a ++ list_ascii_of_string b)%list.
Proof.
  induction a as [|ch a IH]; simpl; [reflexivity | now rewrite IH].
Qed.

Lemma rootedBuf_no_double (out : path.lazybuf) :
  rootedBuf out -> forall l1 l2, out <> (l1 ++ slash :: slash :: l2)%list.
Proof.
  induction 1 as [|ch out Hch H IH|ch out Hch Hne H IH]; intros l1 l2 E.
  - destruct l1 as [|a [|b l1]]; discriminate.
  - destruct l1 as [|a l1]; simpl in E; inversion E; subst.
    + now apply Hch.
    + now apply (IH l1 l2).
  - destruct l1 as [|a [|b l1]]; simpl in E; inversion E; subst.
    + now apply Hch.
    + destruct (rootedBuf_top _ H) as [E1 | (x & rest & E1 & Hx)].
      * inversion E1; subst. now apply Hne.
      * inversion E1; subst. now apply Hx.
    + now apply (IH l1 l2).
Qed.

(** A cleaned rooted path has no two separators in a row. *)
Lemma Clean_rooted_collapses (s : string) :
  ~ doubledSlash (path.Clean (String slash s)).
Proof.
  destruct (Clean_rooted s) as (out & H & ->).
  intros (pre & post & E).
  apply (f_equal list_ascii_of_string) in E.
  unfold path.lazybuf_string in E.
  rewrite list_ascii_of_string_of_list_ascii, !list_ascii_of_string_app in E.
  simpl in E. apply (f_equal (@rev ascii)) in E.
  rewrite rev_involutive, rev_app_distr in E. simpl in E.
  rewrite <- !app_assoc in E. simpl in E.
  exact (rootedBuf_no_double out H _ _ E).
Qed.

Lemma Join_meta_data (P : string) :
  path.Join ["/meta-data"; P] = path.Clean (String slash ("meta-data/" ++ P)).
Proof. reflexivity. Qed.

(** ** [suffixPath] *)

(** C4, as the code has it.  Under base [/meta-data] the result of
    [suffixPath] ends in a separator if and only if the suffix ends in one or
    the joined path is the root [/] itself (which a suffix reaches with [..]
    segments).  The result is the joined path, with a separator appended
    exactly when the suffix ends in one, and the joined path has no two
    separators in a row. *)
Theorem suffixPath_trailing_separator (P : string) :
  (endsWithSlash (suffixPath "/meta-data" P) = true <->
   endsWithSlash P = true \/ path.Join ["/meta-data"; P] = "/")
  /\ suffixPath "/meta-data" P
     = (path.Join ["/meta-data"; P] ++ (if endsWithSlash P then "/" else ""))%string
  /\ ~ doubledSlash (path.Join ["/meta-data"; P]).
Proof.
  rewrite suffixPath_eq, Join_meta_data.
  pose proof (Clean_rooted_end ("meta-data/" ++ P)) as Hend.
  pose proof (Clean_rooted_collapses ("meta-data/" ++ P)) as Hcol.
  set (j := path.Clean _) in *.
  split; [|split].
  - destruct (endsWithSlash P) eqn:EP.
    + split; [now left|]. intros _.
      apply (endsWithSlash_snoc j slash).
    + split.
      * intros Hj. destruct Hend as [-> | Hn]; [now right|congruence].
      * intros [HP | ->]; [discriminate | reflexivity].
  - destruct (endsWithSlash P); [reflexivity|].
    clearbody j. clear. induction j as [|a j IH]; simpl; [reflexivity|].
    now rewrite <- IH.
  - exact Hcol.
Qed.

(** C4 as stated fails at the suffix [..]: it does not end in a separator,
    and the path [suffixPath] makes of it is [/]. *)
Lemma suffixPath_trailing_separator_dotdot :
  suffixPath "/meta-data" ".." = "/"
  /\ endsWithSlash (suffixPath "/meta-data" "..") = true
  /\ endsWithSlash ".." = false.
Proof. repeat split. Qed.

(** C10.  [suffixPath] resolves [..] segments of the suffix: the suffix
    [../user-data] joined under [/meta-data] is [/user-data], which does not
    lie under [/meta-data]. *)
Theorem suffixPath_dotdot_leaves_base :
  suffixPath "/meta-data" "../user-data" = "/user-data"
  /\ HasPrefix (suffixPath "/meta-data" "../user-data") "/meta-data" = false.
Proof. split; reflexivity. Qed.

(** ** The fetch operations *)

Lemma GetMetadata_fetched (c : Client) (p : string) :
  Client.GetMetadata c p
  = fetched (roundTrip c (getOp "GetMetadata" (suffixPath "/meta-data" p))).
Proof.
  unfold Client.GetMetadata, NewRequest, Send, getOp, fetched. simpl.
  destruct (roundTrip c _) as [e | status body [e|]]; reflexivity.
Qed.

Lemma GetDynamicData_fetched (c : Client) (p : string) :
  Client.GetDynamicData c p
  = fetched (roundTrip c (getOp "GetDynamicData" (suffixPath "/dynamic" p))).
Proof.
  unfold Client.GetDynamicData, NewRequest, Send, getOp, fetched. simpl.
  destruct (roundTrip c _) as [e | status body [e|]]; reflexivity.
Qed.

(** ** [GetUserData] *)

(** C1.  When the engine rejects the response to [GET /user-data] with the
    generic error [e]: on status 404 [GetUserData] returns a
    [NotFoundError] whose cause is [e]; on any other status it returns [e]
    itself.  An error raised without any response is returned as it is. *)
Theorem GetUserData_not_found (c : Client) :
  (forall status body e,
      roundTrip c (getOp "GetUserData" "/user-data")
      = aws.Answered status body (Some e) ->
      (status = 404%Z ->
       Client.GetUserData c
       = ("", Some (awserr.New "NotFoundError" "user-data not found" (Some e))))
      /\ (status <> 404%Z -> Client.GetUserData c = ("", Some e)))
  /\ (forall e,
      roundTrip c (getOp "GetUserData" "/user-data") = aws.Unanswered e ->
      Client.GetUserData c = ("", Some e)).
Proof.
  unfold Client.GetUserData, NewRequest, Send, getOp. simpl.
  split.
  - intros status body e ->. simpl. unfold Client.userDataNotFound. simpl.
    split.
    + intros ->. reflexivity.
    + intros Hne. unfold http_StatusNotFound.
      destruct (Z.eqb_spec status 404) as [E|_]; [contradiction | reflexivity].
  - intros e ->. reflexivity.
Qed.

(** A service without user-data (404), one that fails otherwise (500) and
    one that cannot be reached. *)
Lemma GetUserData_not_found_witness :
  Client.GetUserData (stubService [] 404)
  = ("", Some (awserr.New "NotFoundError" "user-data not found"
                 (Some (awserr.New "EC2MetadataError"
                          "failed to make EC2Metadata request" None))))
  /\ Client.GetUserData (stubService [] 500)
     = ("", Some (awserr.New "EC2MetadataError"
                    "failed to make EC2Metadata request" None))
  /\ Client.GetUserData unreachableService
     = ("", Some (awserr.errorString "dial tcp 169.254.169.254:80: i/o timeout")).
Proof.
  split; [|split].
  - exact (proj1 (proj1 (GetUserData_not_found (stubService [] 404))
                    404%Z "" _ eq_refl) eq_refl).
  - refine (proj2 (proj1 (GetUserData_not_found (stubService [] 500))
                     500%Z "" _ eq_refl) _). discriminate.
  - exact (proj2 (GetUserData_not_found unreachableService) _ eq_refl).
Defined.

(** ** [Available] *)

(** C6.  [Available] is true exactly when the fetch of [instance-id]
    returns no error, that is when the engine accepts the response to
    [GET /meta-data/instance-id]; whatever the error of a failed fetch is,
    the result is [false]. *)
Theorem Available_iff_fetch_succeeds (c : Client) :
  (Client.Available c = true <-> snd (Client.GetMetadata c "instance-id") = None)
  /\ (Client.Available c = true <->
      exists status body,
        roundTrip c (getOp "GetMetadata" "/meta-data/instance-id")
        = aws.Answered status body None)
  /\ (forall e, snd (Client.GetMetadata c "instance-id") = Some e ->
                Client.Available c = false).
Proof.
  unfold Client.Available. rewrite GetMetadata_fetched.
  change (suffixPath "/meta-data" "instance-id") with "/meta-data/instance-id".
  destruct (roundTrip c _) as [e | status body [e|]]; simpl.
  - repeat split; try discriminate. intros (s & b & H). discriminate.
  - repeat split; try discriminate. intros (s & b & H). discriminate.
  - repeat split; try discriminate. intros _. now exists status, body.
Qed.

(** The three cases on stub services. *)
Lemma Available_iff_fetch_succeeds_witness :
  Client.Available (stubService [("/meta-data/instance-id", "i-1234567890abcdef0")] 404)
  = true
  /\ Client.Available (stubService [] 500) = false
  /\ Client.Available unreachableService = false.
Proof.
  split; [|split].
  - apply (proj2 (proj1 (Available_iff_fetch_succeeds _))). reflexivity.
  - apply (proj2 (proj2 (Available_iff_fetch_succeeds (stubService [] 500)))
            (awserr.New "EC2MetadataError" "failed to make EC2Metadata request" None)).
    reflexivity.
  - apply (proj2 (proj2 (Available_iff_fetch_succeeds unreachableService))
            (awserr.errorString "dial tcp 169.254.169.254:80: i/o timeout")).
    reflexivity.
Defined.

(** ** [Region] *)

Lemma substring_prefix (a b : string) :
  String.substring 0 (String.length a) (a ++ b) = a.
Proof.
  induction a as [|ch a IH]; simpl.
  - now destruct b.
  - now rewrite IH.
Qed.

Lemma sliceTo_drop_last (region : string) (ch : ascii) :
  sliceTo (region ++ String ch "")
          (Z.of_nat (String.length (region ++ String ch "")) - 1)
  = Returned region.
Proof.
  unfold sliceTo. rewrite length_append_one.
  replace (Z.of_nat (S (String.length region)) - 1)%Z
    with (Z.of_nat (String.length region)) by lia.
  rewrite Nat2Z.id, substring_prefix.
  destruct (Z.leb_spec 0 (Z.of_nat (String.length region))); [|lia].
  destruct (Z.leb_spec (Z.of_nat (String.length region))
                       (Z.of_nat (S (String.length region)))); [|lia].
  reflexivity.
Qed.

(** C5, as the code has it.  When the fetch of
    [placement/availability-zone] succeeds with a non-empty string, that
    is [region] followed by one last byte, [Region] returns [region] and no
    error; when the fetch fails, [Region] returns the empty string and the
    error of the fetch, unchanged. *)
Theorem Region_strips_last_byte (c : Client) :
  (forall region ch,
      Client.GetMetadata c "placement/availability-zone"
      = (region ++ String ch "", None)%string ->
      Client.Region c = Returned (region, None))
  /\ (forall resp e,
      Client.GetMetadata c "placement/availability-zone" = (resp, Some e) ->
      Client.Region c = Returned ("", Some e)).
Proof.
  unfold Client.Region. split.
  - intros region ch ->. now rewrite sliceTo_drop_last.
  - intros resp e ->. reflexivity.
Qed.

(** The two zones of the specification, and a failed fetch. *)
Lemma Region_strips_last_byte_witness :
  Client.Region
    (stubService [("/meta-data/placement/availability-zone", "us-west-2a")] 404)
  = Returned ("us-west-2", None)
  /\ Client.Region
       (stubService [("/meta-data/placement/availability-zone", "eu-central-1b")] 404)
     = Returned ("eu-central-1", None)
  /\ Client.Region unreachableService
     = Returned ("", Some (awserr.errorString
                             "dial tcp 169.254.169.254:80: i/o timeout")).
Proof.
  split; [|split].
  - exact (proj1 (Region_strips_last_byte
                    (stubService
                       [("/meta-data/placement/availability-zone", "us-west-2a")] 404))
                 "us-west-2" "a"%char eq_refl).
  - exact (proj1 (Region_strips_last_byte
                    (stubService
                       [("/meta-data/placement/availability-zone", "eu-central-1b")] 404))
                 "eu-central-1" "b"%char eq_refl).
  - exact (proj2 (Region_strips_last_byte unreachableService) "" _ eq_refl).
Defined.

(** C5 as stated fails for the empty string: the fetch succeeds with it,
    and [Region] returns nothing, it panics. *)
Lemma Region_empty_zone :
  Client.GetMetadata
    (stubService [("/meta-data/placement/availability-zone", "")] 404)
    "placement/availability-zone" = ("", None)
  /\ Client.Region
       (stubService [("/meta-data/placement/availability-zone", "")] 404)
     = Panicked "slice bounds out of range"
  /\ Client.Region
       (stubService [("/meta-data/placement/availability-zone", "")] 404)
     <> Returned ("", None).
Proof. repeat split. discriminate. Qed.

(** C8.  [Region] slices without a guard: after a successful fetch it
    panics exactly when the fetched string is empty, with the out-of-range
    slice bound [-1], and returns a region otherwise. *)
Theorem Region_unguarded (c : Client) (resp : string) :
  Client.GetMetadata c "placement/availability-zone" = (resp, None) ->
  (resp = "" -> Client.Region c = Panicked "slice bounds out of range")
  /\ (resp <> "" -> exists region, Client.Region c = Returned (region, None))
  /\ ((exists msg, Client.Region c = Panicked msg) <-> resp = "")
  /\ (sliceTo resp (Z.of_nat (String.length resp) - 1)
      = Panicked "slice bounds out of range" <-> String.length resp = 0).
Proof.
  intros H. unfold Client.Region. rewrite H.
  assert (Hs : forall a s, exists region,
             sliceTo (String a s) (Z.of_nat (String.length (String a s)) - 1)
             = Returned region).
  { intros a s. unfold sliceTo.
    replace (Z.of_nat (String.length (String a s)) - 1)%Z
      with (Z.of_nat (String.length s)) by (simpl String.length; lia).
    destruct (Z.leb_spec 0 (Z.of_nat (String.length s))); [|lia].
    destruct (Z.leb_spec (Z.of_nat (String.length s))
                         (Z.of_nat (String.length (String a s))));
      [|simpl String.length in *; lia].
    eexists. reflexivity. }
  destruct resp as [|a s].
  - repeat split; try reflexivity; try congruence.
    intros _. eexists. reflexivity.
  - destruct (Hs a s) as (region & ->).
    repeat split; try discriminate.
    + intros _. now exists region.
    + intros (msg & E). discriminate.
Qed.

(** A service that answers the zone request with an empty body. *)
Lemma Region_unguarded_witness :
  Client.Region
    (stubService [("/meta-data/placement/availability-zone", "")] 404)
  = Panicked "slice bounds out of range".
Proof.
  exact (proj1 (Region_unguarded
                  (stubService [("/meta-data/placement/availability-zone", "")] 404)
                  "" eq_refl) eq_refl).
Defined.

(** ** [IAMInfo] *)

(** C2.  When the fetch of [iam/info] succeeds and its body decodes into
    [info] without error: if [info.Code] is [Success], [IAMInfo] returns
    [info] and no error; otherwise it returns an [EC2MetadataError] with no
    cause, whose message contains the code. *)
Theorem IAMInfo_code
        (decodeIAMInfo : string -> EC2IAMInfo -> EC2IAMInfo * option error)
        (c : Client) (resp : string) (info : EC2IAMInfo) :
  Client.GetMetadata c "iam/info" = (resp, None) ->
  decodeIAMInfo resp EC2IAMInfo_zero = (info, None) ->
  (Code info = "Success" -> Client.IAMInfo decodeIAMInfo c = (info, None))
  /\ (Code info <> "Success" ->
      exists errMsg,
        Client.IAMInfo decodeIAMInfo c
        = (EC2IAMInfo_zero, Some (awserr.New "EC2MetadataError" errMsg None))
        /\ errMsg = ("failed to get EC2 IAM Info (" ++ Code info ++ ")")%string
        /\ Contains errMsg (Code info)).
Proof.
  intros Hfetch Hdec. unfold Client.IAMInfo. rewrite Hfetch, Hdec. split.
  - intros ->. reflexivity.
  - intros Hne. apply String.eqb_neq in Hne. rewrite Hne. simpl.
    eexists. split; [reflexivity|]. split; [reflexivity|].
    now exists "failed to get EC2 IAM Info (", ")".
Qed.

(** The library's decoder on a payload with code [Success] and on one
    with code [Failed]. *)
Lemma IAMInfo_code_witness :
  Code (fst (Client.IAMInfo json_Decode_IAMInfo (iamInfoService "Success")))
  = "Success"
  /\ snd (Client.IAMInfo json_Decode_IAMInfo (iamInfoService "Success")) = None
  /\ exists errMsg,
      Client.IAMInfo json_Decode_IAMInfo (iamInfoService "Failed")
      = (EC2IAMInfo_zero, Some (awserr.New "EC2MetadataError" errMsg None))
      /\ errMsg = "failed to get EC2 IAM Info (Failed)"
      /\ Contains errMsg "Failed".
Proof.
  split; [|split].
  - rewrite (proj1 (IAMInfo_code json_Decode_IAMInfo (iamInfoService "Success")
                      (sampleIAMInfoText "Success")
                      (fst (json_Decode_IAMInfo (sampleIAMInfoText "Success")
                                                EC2IAMInfo_zero))
                      eq_refl eq_refl) eq_refl).
    reflexivity.
  - rewrite (proj1 (IAMInfo_code json_Decode_IAMInfo (iamInfoService "Success")
                      (sampleIAMInfoText "Success")
                      (fst (json_Decode_IAMInfo (sampleIAMInfoText "Success")
                                                EC2IAMInfo_zero))
                      eq_refl eq_refl) eq_refl).
    reflexivity.
  - refine (proj2 (IAMInfo_code json_Decode_IAMInfo (iamInfoService "Failed")
                     (sampleIAMInfoText "Failed")
                     (fst (json_Decode_IAMInfo (sampleIAMInfoText "Failed")
                                               EC2IAMInfo_zero))
                     eq_refl eq_refl) _).
    discriminate.
Defined.

(** ** [GetInstanceIdentityDocument] *)

(** C3.  [GetInstanceIdentityDocument] fetches
    [/dynamic/instance-identity/document].  If the fetch fails with [e], it
    returns an [EC2MetadataRequestError] whose cause is [e], whatever the
    decoder would do; if the fetch succeeds and decoding the body fails
    with [e], it returns a [SerializationError] whose cause is [e];
    otherwise it returns the decoded record and no error.  An error it
    returns is of one of these two kinds. *)
Theorem GetInstanceIdentityDocument_failure_modes
        (decodeDocument : string -> EC2InstanceIdentityDocument ->
                          EC2InstanceIdentityDocument * option error)
        (c : Client) :
  Client.GetDynamicData c "instance-identity/document"
  = fetched (roundTrip c (getOp "GetDynamicData" "/dynamic/instance-identity/document"))
  /\ (forall resp e,
      Client.GetDynamicData c "instance-identity/document" = (resp, Some e) ->
      Client.GetInstanceIdentityDocument decodeDocument c
      = (EC2InstanceIdentityDocument_zero,
         Some (awserr.New "EC2MetadataRequestError"
                 "failed to get EC2 instance identity document" (Some e))))
  /\ (forall resp doc e,
      Client.GetDynamicData c "instance-identity/document" = (resp, None) ->
      decodeDocument resp EC2InstanceIdentityDocument_zero = (doc, Some e) ->
      Client.GetInstanceIdentityDocument decodeDocument c
      = (EC2InstanceIdentityDocument_zero,
         Some (awserr.New "SerializationError"
                 "failed to decode EC2 instance identity document" (Some e))))
  /\ (forall resp doc,
      Client.GetDynamicData c "instance-identity/document" = (resp, None) ->
      decodeDocument resp EC2InstanceIdentityDocument_zero = (doc, None) ->
      Client.GetInstanceIdentityDocument decodeDocument c = (doc, None))
  /\ (forall doc e,
      Client.GetInstanceIdentityDocument decodeDocument c = (doc, Some e) ->
      awserr.Code e = Some "EC2MetadataRequestError"
      \/ awserr.Code e = Some "SerializationError").
Proof.
  split; [apply GetDynamicData_fetched|].
  unfold Client.GetInstanceIdentityDocument.
  repeat split.
  - intros resp e ->. reflexivity.
  - intros resp doc e -> ->. reflexivity.
  - intros resp doc -> ->. reflexivity.
  - intros doc e.
    destruct (Client.GetDynamicData c _) as [resp [e1|]].
    + intros [= _ <-]. now left.
    + destruct (decodeDocument resp _) as [d [e2|]].
      * intros [= _ <-]. now right.
      * discriminate.
Qed.

(** An unreachable service, a body that is not JSON, and the sample
    document. *)
Lemma GetInstanceIdentityDocument_failure_modes_witness :
  Client.GetInstanceIdentityDocument json_Decode_Document unreachableService
  = (EC2InstanceIdentityDocument_zero,
     Some (awserr.New "EC2MetadataRequestError"
             "failed to get EC2 instance identity document"
             (Some (awserr.errorString "dial tcp 169.254.169.254:80: i/o timeout"))))
  /\ Client.GetInstanceIdentityDocument json_Decode_Document
       (documentService "{ not json")
     = (EC2InstanceIdentityDocument_zero,
        Some (awserr.New "SerializationError"
                "failed to decode EC2 instance identity document"
                (Some (awserr.errorString "json: syntax error"))))
  /\ Region (fst (Client.GetInstanceIdentityDocument json_Decode_Document
                    (documentService sampleDocumentText)))
     = "us-east-1".
Proof.
  pose proof (GetInstanceIdentityDocument_failure_modes
                json_Decode_Document unreachableService) as (_ & H1 & _).
  pose proof (GetInstanceIdentityDocument_failure_modes
                json_Decode_Document (documentService "{ not json"))
    as (_ & _ & H2 & _).
  pose proof (GetInstanceIdentityDocument_failure_modes
                json_Decode_Document (documentService sampleDocumentText))
    as (_ & _ & _ & H3 & _).
  split; [|split].
  - exact (H1 "" _ eq_refl).
  - exact (H2 "{ not json" EC2InstanceIdentityDocument_zero _ eq_refl eq_refl).
  - rewrite (H3 sampleDocumentText
                (fst (json_Decode_Document sampleDocumentText
                                           EC2InstanceIdentityDocument_zero))
                eq_refl eq_refl).
    reflexivity.
Defined.

(** ** Records returned with an error *)

(** C9.  Whenever [GetInstanceIdentityDocument] or [IAMInfo] returns an
    error, the record it returns with it is the zero record, whatever the
    decoder left in the record it was decoding into. *)
Theorem error_comes_with_zero_record
        (decodeDocument : string -> EC2InstanceIdentityDocument ->
                          EC2InstanceIdentityDocument * option error)
        (decodeIAMInfo : string -> EC2IAMInfo -> EC2IAMInfo * option error)
        (c : Client) :
  (forall doc e,
      Client.GetInstanceIdentityDocument decodeDocument c = (doc, Some e) ->
      doc = EC2InstanceIdentityDocument_zero)
  /\ (forall info e,
      Client.IAMInfo decodeIAMInfo c = (info, Some e) ->
      info = EC2IAMInfo_zero).
Proof.
  split.
  - intros doc e. unfold Client.GetInstanceIdentityDocument.
    destruct (Client.GetDynamicData c _) as [resp [e1|]].
    + now intros [= <- _].
    + destruct (decodeDocument resp _) as [d [e2|]].
      * now intros [= <- _].
      * discriminate.
  - intros info e. unfold Client.IAMInfo.
    destruct (Client.GetMetadata c _) as [resp [e1|]].
    + now intros [= <- _].
    + destruct (decodeIAMInfo resp _) as [i [e2|]].
      * now intros [= <- _].
      * destruct (negb (String.eqb (Code i) "Success")).
        -- now intros [= <- _].
        -- discriminate.
Qed.

(** A document whose [version] is a number leaves the decoder with a
    partly populated record and an error; an IAM info with code [Failed]
    decodes in full.  Neither record is what the operation returns. *)
Lemma error_comes_with_zero_record_witness :
  Region (fst (json_Decode_Document mistypedDocumentText
                                    EC2InstanceIdentityDocument_zero))
  = "us-east-1"
  /\ fst (Client.GetInstanceIdentityDocument json_Decode_Document
            (documentService mistypedDocumentText))
     = EC2InstanceIdentityDocument_zero
  /\ Code (fst (json_Decode_IAMInfo (sampleIAMInfoText "Failed") EC2IAMInfo_zero))
     = "Failed"
  /\ fst (Client.IAMInfo json_Decode_IAMInfo (iamInfoService "Failed"))
     = EC2IAMInfo_zero.
Proof.
  split; [reflexivity|]. split; [|split; [reflexivity|]].
  - apply (proj1 (error_comes_with_zero_record json_Decode_Document
                    json_Decode_IAMInfo (documentService mistypedDocumentText))
                 _ (awserr.New "SerializationError"
                      "failed to decode EC2 instance identity document"
                      (Some (json.typeError (json.JNumber "5") "string")))).
    reflexivity.
  - apply (proj2 (error_comes_with_zero_record json_Decode_Document
                    json_Decode_IAMInfo (iamInfoService "Failed"))
                 _ (awserr.New "EC2MetadataError"
                      "failed to get EC2 IAM Info (Failed)" None)).
    reflexivity.
Defined.

(** ** The decoder on sample texts *)

Example readValue_samples :
  json.readValue (jsonText "{'a': [1, -2.5e+3, true, null], 'b': {}} and more")
  = Some (json.JObject
            [("a", json.JArray [json.JNumber "1"; json.JNumber "-2.5e+3";
                                json.JBool true; json.JNull]);
             ("b", json.JObject [])])
  /\ json.readValue (jsonText "'a\u00e9\n\ud83d\ude00'")
     = Some (json.JString
               (String "a" (String "195" (String "169" (String "010"
                 (String "240" (String "159" (String "152" (String "128" "")))))))))
  /\ json.readValue "[1,]" = None
  /\ json.readValue (jsonText "{'a':01}") = None
  /\ json.readValue (jsonText "{'a' 1}") = None
  /\ json.readValue (jsonText "'open") = None.
Proof. repeat split. Qed.

(** The key [InstanceProfileId] of the service's payload selects the field
    [InstanceProfileID] by folding; a key that selects no field is
    skipped. *)
Example Decode_IAMInfo_sample :
  json_Decode_IAMInfo (sampleIAMInfoText "Success") EC2IAMInfo_zero
  = ({| Code := "Success";
        LastUpdated :=
          {| time.Year := 2016; time.Month := 3; time.Day := 17;
             time.Hour := 12; time.Minute := 27; time.Second := 32;
             time.Nanosecond := 0; time.ZoneOffset := 0 |}%Z;
        InstanceProfileArn :=
          "arn:aws:iam::123456789012:instance-profile/my-instance-profile";
        InstanceProfileID := "AIPAABCDEFGHIJKLMN123" |}, None)
  /\ json_Decode_IAMInfo (jsonText "{'code':'Success','Other':[1,2]}") EC2IAMInfo_zero
     = (set_info_Code EC2IAMInfo_zero "Success", None)
  /\ snd (json_Decode_IAMInfo (jsonText "{'Code':'Success','LastUpdated':'soon'}")
                              EC2IAMInfo_zero)
     = Some (awserr.errorString "parsing time soon")
  /\ snd (json_Decode_IAMInfo "" EC2IAMInfo_zero) = Some (awserr.errorString "EOF").
Proof. repeat split. Qed.

(** ** The identity document *)













(** ** [path.Clean] walks the segments of a rooted path *)

Lemma byteAt_drop (p : string) (r k : nat) :
  byteAt p (r + k) = byteAt (dropBytes r p) k.
Proof.
  revert p. induction r as [|r IH]; intros p; simpl; [reflexivity|].
  destruct p as [|a p]; simpl.
  - unfold byteAt. simpl. now destruct k.
  - unfold byteAt in *. simpl. apply IH.
Qed.

Lemma length_drop (p : string) (r : nat) :
  String.length (dropBytes r p) = String.length p - r.
Proof.
  revert p. induction r as [|r IH]; intros p; simpl; [lia|].
  destruct p as [|a p]; simpl; [reflexivity | apply IH].
Qed.

Lemma drop_drop (p : string) (r k : nat) :
  dropBytes k (dropBytes r p) = dropBytes (r + k) p.
Proof.
  revert p. induction r as [|r IH]; intros p; simpl; [reflexivity|].
  destruct p as [|a p]; simpl; [now destruct k | apply IH].
Qed.

Lemma drop_cons (p : string) (r : nat) (ch : ascii) (d : string) :
  dropBytes r p = String ch d ->
  byteAt p r = ch /\ r < String.length p /\ dropBytes (S r) p = d.
Proof.
  intros E. repeat split.
  - rewrite <- (Nat.add_0_r r), byteAt_drop, E. reflexivity.
  - pose proof (length_drop p r) as H. rewrite E in H. simpl in H. lia.
  - replace (S r) with (r + 1) by lia. rewrite <- drop_drop, E. reflexivity.
Qed.

Lemma drop_nil (p : string) (r : nat) :
  dropBytes r p = "" -> String.length p <= r.
Proof.
  intros E. pose proof (length_drop p r) as H. rewrite E in H. simpl in H. lia.
Qed.

Lemma seg_split (s : string) : s = (segHead s ++ segTail s)%string.
Proof.
  induction s as [|a s IH]; simpl; [reflexivity|].
  destruct (Ascii.eqb a slash); simpl; [reflexivity | now rewrite <- IH].
Qed.

Lemma segHead_noSlash (s : string) : noSlash (segHead s) = true.
Proof.
  induction s as [|a s IH]; simpl; [reflexivity|].
  destruct (Ascii.eqb a slash) eqn:E; simpl; [reflexivity | now rewrite E].
Qed.

Lemma segTail_shape (s : string) :
  segTail s = "" \/ exists t, segTail s = String slash t.
Proof.
  induction s as [|a s IH]; simpl; [now left|].
  destruct (Ascii.eqb_spec a slash) as [->|_]; [right; eauto | exact IH].
Qed.

Lemma splitSlash_nonempty (s : string) : splitSlash s <> [].
Proof.
  induction s as [|a s IH]; simpl; [discriminate|].
  destruct (Ascii.eqb a slash); [discriminate|].
  destruct (splitSlash s); [contradiction | discriminate].
Qed.

(** The segments of a text are its first segment and the segments of what
    follows the separator after it. *)
Lemma splitSlash_seg (seg t : string) :
  noSlash seg = true ->
  splitSlash seg = [seg]
  /\ splitSlash (seg ++ String slash t) = seg :: splitSlash t.
Proof.
  induction seg as [|a seg IH]; simpl; intros H.
  - now split.
  - apply Bool.andb_true_iff in H as [Ha Hs].
    apply Bool.negb_true_iff in Ha. rewrite Ha.
    destruct (IH Hs) as [-> ->]. split; reflexivity.
Qed.

Lemma walk_empty (st : list string) : walk st "" = st.
Proof. reflexivity. Qed.

Lemma resolve_segHead (s : string) (st : list string) :
  resolve (splitSlash s) st = resolve (splitSlash (segTail s)) (walk st (segHead s)).
Proof.
  pose proof (segHead_noSlash s) as Hn.
  destruct (splitSlash_seg (segHead s) "" Hn) as [H1 _].
  rewrite (seg_split s) at 1.
  destruct (segTail_shape s) as [E | (t & E)]; rewrite E.
  - assert (Happ : forall x : string, (x ++ "")%string = x)
      by (induction x as [|a x IH]; simpl; [reflexivity | now rewrite IH]).
    rewrite Happ, H1. reflexivity.
  - destruct (splitSlash_seg (segHead s) t Hn) as [_ H2]. rewrite H2.
    reflexivity.
Qed.

(** The copy loop moves the segment at [r] to the buffer. *)
Lemma copyElement_segHead (p : string) (fuel r : nat) (out : path.lazybuf) :
  String.length (segHead (dropBytes r p)) <= fuel ->
  path.copyElement fuel p (String.length p) r out
  = (r + String.length (segHead (dropBytes r p)),
     (rev (list_ascii_of_string (segHead (dropBytes r p))) ++ out)%list).
Proof.
  revert r out. induction fuel as [|fuel IH]; intros r out Hf.
  - destruct (segHead (dropBytes r p)) as [|a s]; simpl in *; [|lia].
    now rewrite Nat.add_0_r.
  - simpl. destruct (dropBytes r p) as [|ch d] eqn:E.
    + apply drop_nil in E.
      replace (r <? String.length p) with false
        by (symmetry; apply Nat.ltb_ge; lia).
      simpl. now rewrite Nat.add_0_r.
    + destruct (drop_cons p r ch d E) as (Hb & Hr & Hd).
      apply Nat.ltb_lt in Hr. rewrite Hr, Hb. simpl.
      destruct (Ascii.eqb ch slash) eqn:Es; simpl.
      * now rewrite Nat.add_0_r.
      * simpl in Hf. rewrite Es in Hf. simpl in Hf.
        rewrite IH by (rewrite Hd; lia). rewrite Hd.
        unfold path.append. simpl. rewrite <- app_assoc. simpl.
        f_equal. lia.
Qed.

Lemma noSlash_Forall (s : string) :
  noSlash s = true ->
  Forall (fun ch => Ascii.eqb ch slash = false) (list_ascii_of_string s).
Proof.
  induction s as [|a s IH]; simpl; intros H; constructor.
  - apply Bool.andb_true_iff in H as [Ha _]. now apply Bool.negb_true_iff.
  - apply IH. now apply Bool.andb_true_iff in H as [_ Hs].
Qed.

Lemma backtrack_to_root (l : list ascii) :
  l <> [] -> Forall (fun ch => Ascii.eqb ch slash = false) l ->
  path.backtrack (l ++ [slash])%list 1 = [slash].
Proof.
  induction l as [|a l IH]; intros Hne Hall; [contradiction|].
  inversion Hall as [|? ? Ha Hl]; subst.
  cbn [app path.backtrack]. rewrite Ha. cbn [negb]. rewrite Bool.andb_true_r.
  destruct l as [|b l]; [reflexivity|].
  replace (1 <? path.w ((b :: l) ++ [slash])%list) with true
    by (symmetry; apply Nat.ltb_lt; unfold path.w; rewrite length_app; simpl; lia).
  apply IH; [discriminate | exact Hl].
Qed.

Lemma backtrack_to_sep (l b : list ascii) :
  Forall (fun ch => Ascii.eqb ch slash = false) l -> 1 <= List.length b ->
  path.backtrack (l ++ slash :: b)%list 1 = b.
Proof.
  induction l as [|a l IH]; intros Hall Hb.
  - cbn [app path.backtrack]. unfold slash at 1. rewrite Ascii.eqb_refl.
    cbn [negb]. now rewrite Bool.andb_false_r.
  - inversion Hall as [|? ? Ha Hl]; subst.
    cbn [app path.backtrack]. rewrite Ha. cbn [negb]. rewrite Bool.andb_true_r.
    replace (1 <? path.w (l ++ slash :: b)%list) with true
      by (symmetry; apply Nat.ltb_lt; unfold path.w; rewrite length_app; simpl; lia).
    now apply IH.
Qed.

Lemma isName_parts (seg : string) :
  isName seg = true ->
  seg <> "" /\ seg <> "." /\ seg <> ".." /\ noSlash seg = true.
Proof.
  unfold isName. intros H.
  repeat (apply Bool.andb_true_iff in H as [H ?]).
  repeat split; try assumption; intros ->; discriminate.
Qed.

Lemma bufOf_length (st : list string) : 1 <= List.length (bufOf st).
Proof.
  destruct st as [|s [|s' st]]; simpl; rewrite ?length_app; simpl; lia.
Qed.

Lemma bufOf_w (st : list string) :
  Forall (fun s => isName s = true) st ->
  (path.w (bufOf st) =? 1) = match st with [] => true | _ :: _ => false end.
Proof.
  intros H. destruct st as [|s st]; [reflexivity|].
  inversion H as [|? ? Hs _]; subst.
  apply isName_parts in Hs as (Hne & _).
  apply Nat.eqb_neq. unfold path.w. simpl. rewrite length_app, length_rev.
  destruct s as [|a s]; [contradiction|]. simpl.
  destruct st; simpl; lia.
Qed.

Lemma backtrack_bufOf (seg : string) (st : list string) :
  isName seg = true ->
  path.backtrack (bufOf (seg :: st)) 1 = bufOf st.
Proof.
  intros H. apply isName_parts in H as (Hne & _ & _ & Hs).
  assert (Hall : Forall (fun ch => Ascii.eqb ch slash = false)
                        (rev (list_ascii_of_string seg)))
    by (apply Forall_rev; now apply noSlash_Forall).
  simpl. destruct st as [|s st].
  - apply backtrack_to_root; [|exact Hall].
    intros E. apply (f_equal (@List.length ascii)) in E.
    rewrite length_rev in E. destruct seg; [contradiction | discriminate].
  - apply backtrack_to_sep; [exact Hall | apply bufOf_length].
Qed.

Lemma drop_app (a b : string) : dropBytes (String.length a) (a ++ b) = b.
Proof. induction a as [|ch a IH]; simpl; [reflexivity | exact IH]. Qed.

Lemma length_app_string (a b : string) :
  String.length (a ++ b) = String.length a + String.length b.
Proof. induction a as [|ch a IH]; simpl; [reflexivity | now rewrite IH]. Qed.

(** The tests of the loop for a [.] and a [..] element, on the input still
    to read. *)
Lemma dot_test (ch : ascii) (d : string) :
  Ascii.eqb ch slash = false ->
  Ascii.eqb ch dot && ((String.length d =? 0) || Ascii.eqb (byteAt d 0) slash)
  = String.eqb (segHead (String ch d)) ".".
Proof.
  intros Hs. simpl. rewrite Hs. simpl. fold dot.
  destruct (Ascii.eqb ch dot); simpl; [|reflexivity].
  destruct d as [|a d]; simpl; [reflexivity|].
  unfold byteAt. simpl. now destruct (Ascii.eqb a slash).
Qed.

Lemma dotdot_test (ch : ascii) (d : string) :
  Ascii.eqb ch slash = false ->
  Ascii.eqb ch dot && Ascii.eqb (byteAt d 0) dot
  && ((String.length d =? 1) || Ascii.eqb (byteAt d 1) slash)
  = String.eqb (segHead (String ch d)) "..".
Proof.
  intros Hs. simpl. rewrite Hs. simpl. fold dot.
  destruct (Ascii.eqb ch dot); simpl; [|reflexivity].
  destruct d as [|a d]; simpl; [reflexivity|].
  unfold byteAt. simpl.
  destruct (Ascii.eqb_spec a slash) as [->|Ha]; simpl; [reflexivity|].
  fold dot. destruct (Ascii.eqb a dot); simpl; [|reflexivity].
  destruct d as [|b d]; simpl; [reflexivity|].
  now destruct (Ascii.eqb b slash).
Qed.

Lemma walk_names (st : list string) (seg : string) :
  noSlash seg = true ->
  Forall (fun s => isName s = true) st ->
  Forall (fun s => isName s = true) (walk st seg).
Proof.
  intros Hn H. unfold walk.
  destruct (String.eqb seg "") eqn:E1; [exact H|].
  destruct (String.eqb seg ".") eqn:E2; [exact H|].
  destruct (String.eqb seg "..") eqn:E3.
  - destruct st; [exact H | now inversion H].
  - constructor; [|exact H]. unfold isName. now rewrite E1, E2, E3, Hn.
Qed.

(** The loop of [Clean] on a rooted path walks the segments that are left
    to read: started at index [r] on the buffer of the stack [st], it ends
    on the buffer of the stack the walk ends on. *)
Lemma cleanLoop_walks (p : string) (fuel r : nat) (st : list string) :
  r <= String.length p -> String.length p - r <= fuel ->
  Forall (fun s => isName s = true) st ->
  path.cleanLoop fuel p (String.length p) true r 1 (bufOf st)
  = bufOf (resolve (splitSlash (dropBytes r p)) st).
Proof.
  revert r st. induction fuel as [|fuel IH]; intros r st Hr Hf Hst.
  - assert (E : dropBytes r p = "").
    { pose proof (length_drop p r) as H. destruct (dropBytes r p); [reflexivity|].
      simpl in H. lia. }
    rewrite E. reflexivity.
  - cbn [path.cleanLoop].
    destruct (dropBytes r p) as [|ch d] eqn:E.
    + apply drop_nil in E.
      replace (r <? String.length p) with false
        by (symmetry; apply Nat.ltb_ge; lia).
      reflexivity.
    + destruct (drop_cons p r ch d E) as (Hb & Hlt & Hd).
      pose proof (length_drop p r) as Hlen. rewrite E in Hlen. simpl in Hlen.
      replace (r <? String.length p) with true
        by (symmetry; now apply Nat.ltb_lt).
      cbn [negb]. rewrite Hb.
      destruct (Ascii.eqb ch slash) eqn:Es.
      * (* an empty element *)
        rewrite IH by (try assumption; lia).
        replace (r + 1) with (S r) by lia. rewrite Hd.
        simpl. rewrite Es. reflexivity.
      * set (seg := segHead (String ch d)).
        assert (Hseg : 1 <= String.length seg)
          by (unfold seg; simpl; rewrite Es; simpl; lia).
        assert (Hsplit : String ch d = (seg ++ segTail (String ch d))%string)
          by apply seg_split.
        assert (Hsl : String.length seg + String.length (segTail (String ch d))
                      = S (String.length d)).
        { rewrite <- length_app_string, <- Hsplit. reflexivity. }
        assert (Hnext : dropBytes (r + String.length seg) p = segTail (String ch d)).
        { rewrite <- drop_drop, E. rewrite Hsplit at 1. apply drop_app. }
        assert (Hno : noSlash seg = true) by apply segHead_noSlash.
        rewrite (resolve_segHead (String ch d) st). fold seg.
        replace (byteAt p (r + 1)) with (byteAt d 0)
          by (rewrite (byteAt_drop p r 1), E; reflexivity).
        replace (byteAt p (r + 2)) with (byteAt d 1)
          by (rewrite (byteAt_drop p r 2), E; reflexivity).
        replace (r + 1 =? String.length p) with (String.length d =? 0)
          by (destruct (Nat.eqb_spec (String.length d) 0);
              symmetry; [apply Nat.eqb_eq | apply Nat.eqb_neq]; lia).
        replace (r + 2 =? String.length p) with (String.length d =? 1)
          by (destruct (Nat.eqb_spec (String.length d) 1);
              symmetry; [apply Nat.eqb_eq | apply Nat.eqb_neq]; lia).
        rewrite (dot_test ch d Es), (dotdot_test ch d Es). fold seg.
        destruct (String.eqb seg ".") eqn:E1.
        { (* a . element *)
          apply String.eqb_eq in E1.
          rewrite IH by (try assumption; lia).
          rewrite <- Hnext, E1. reflexivity. }
        destruct (String.eqb seg "..") eqn:E2.
        { (* a .. element *)
          apply String.eqb_eq in E2.
          assert (Hw : walk st seg = tl st) by (rewrite E2; reflexivity).
          assert (Hl2 : String.length seg = 2) by (rewrite E2; reflexivity).
          rewrite Hw, <- Hnext, E2. simpl String.length.
          destruct st as [|s st].
          - simpl (1 <? path.w (bufOf [])). cbn [negb].
            now rewrite (IH (r + 2) []) by (try assumption; lia).
          - inversion Hst as [|? ? Hs Hst']; subst.
            replace (1 <? path.w (bufOf (s :: st))) with true.
            2:{ symmetry. apply Nat.ltb_lt.
                pose proof (bufOf_w (s :: st) Hst) as H1.
                apply Nat.eqb_neq in H1.
                pose proof (bufOf_length (s :: st)). unfold path.w in *. lia. }
            rewrite (backtrack_bufOf s st Hs).
            now rewrite (IH (r + 2) st) by (try assumption; lia). }
        (* a real path element *)
        assert (Hname : isName seg = true).
        { unfold isName. rewrite E1, E2, Hno.
          destruct seg; [simpl in Hseg; lia | reflexivity]. }
        assert (Hw : walk st seg = seg :: st).
        { unfold walk. rewrite E1, E2. destruct seg; [simpl in Hseg; lia | reflexivity]. }
        rewrite Hw. cbn [andb negb orb].
        rewrite (bufOf_w st Hst), Bool.orb_false_r.
        rewrite copyElement_segHead by (rewrite E; fold seg; lia).
        rewrite E. fold seg.
        match goal with
        | |- path.cleanLoop _ _ _ _ _ _ ?o = _ =>
            replace o with (bufOf (seg :: st)) by (destruct st; reflexivity)
        end.
        rewrite IH; [| lia | lia | now constructor ].
        now rewrite Hnext.
Qed.

Lemma append_assoc (a b c : string) :
  ((a ++ b) ++ c)%string = (a ++ b ++ c)%string.
Proof. induction a as [|ch a IH]; simpl; [reflexivity | now rewrite IH]. Qed.

Lemma append_nil_r (a : string) : (a ++ "")%string = a.
Proof. induction a as [|ch a IH]; simpl; [reflexivity | now rewrite IH]. Qed.

Lemma strings_Join_snoc (l : list string) (s sep : string) :
  l <> [] ->
  strings_Join (l ++ [s]) sep = (strings_Join l sep ++ sep ++ s)%string.
Proof.
  induction l as [|a l IH]; intros Hne; [contradiction|].
  destruct l as [|b l]; [reflexivity|].
  change (strings_Join ((a :: b :: l) ++ [s]) sep)
    with (a ++ sep ++ strings_Join ((b :: l) ++ [s]) sep)%string.
  rewrite IH by discriminate.
  change (strings_Join (a :: b :: l) sep)
    with (a ++ sep ++ strings_Join (b :: l) sep)%string.
  now rewrite !append_assoc.
Qed.

Lemma string_of_list_ascii_app' (a b : list ascii) :
  string_of_list_ascii (a ++ b)
  = (string_of_list_ascii a ++ string_of_list_ascii b)%string.
Proof. induction a as [|ch a IH]; simpl; [reflexivity | now rewrite IH]. Qed.

(** The text of the buffer of a stack is the rooted path of its names. *)
Lemma bufOf_text (st : list string) :
  path.lazybuf_string (bufOf st) = rootedPath (rev st).
Proof.
  unfold path.lazybuf_string, rootedPath.
  induction st as [|s st IH]; [reflexivity|].
  cbn [bufOf]. rewrite rev_app_distr, rev_involutive.
  destruct st as [|s' st].
  - simpl. now rewrite string_of_list_ascii_of_string.
  - rewrite string_of_list_ascii_app'. cbn [rev] in *.
    rewrite string_of_list_ascii_app', IH.
    rewrite string_of_list_ascii_of_string.
    rewrite (strings_Join_snoc (rev st ++ [s']) s "/")
      by (destruct (rev st); discriminate).
    simpl. now rewrite !append_assoc.
Qed.

Lemma splitSlash_noSlash (s : string) :
  Forall (fun seg => noSlash seg = true) (splitSlash s).
Proof.
  induction s as [|a s IH]; simpl.
  - repeat constructor.
  - destruct (Ascii.eqb a slash) eqn:E; [now constructor|].
    destruct (splitSlash s) as [|seg segs]; [repeat constructor; simpl; now rewrite E|].
    inversion IH; subst. constructor; [|assumption]. simpl. now rewrite E.
Qed.

Lemma resolve_names (segs st : list string) :
  Forall (fun seg => noSlash seg = true) segs ->
  Forall (fun s => isName s = true) st ->
  Forall (fun s => isName s = true) (resolve segs st).
Proof.
  unfold resolve. revert st.
  induction segs as [|seg segs IH]; intros st Hs Hst; simpl; [exact Hst|].
  inversion Hs; subst. apply IH; [assumption|]. now apply walk_names.
Qed.

(** [Clean] of a rooted path is the rooted path of the names its segments
    walk to from the root. *)
Lemma Clean_walks (s : string) :
  path.Clean (String slash s) = rootedPath (rev (resolve (splitSlash s) [])).
Proof.
  unfold path.Clean. unfold slash at 1 2. simpl String.eqb. cbv iota.
  change (byteAt (String "/" s) 0) with slash.
  rewrite Ascii.eqb_refl. cbv zeta.
  change (path.append [] slash) with (bufOf []).
  change "/"%char with slash.
  rewrite (cleanLoop_walks (String slash s) _ 1 []); [| simpl; lia | lia | constructor].
  simpl dropBytes.
  pose proof (bufOf_length (resolve (splitSlash s) [])) as Hl.
  destruct (path.w (bufOf (resolve (splitSlash s) [])) =? 0) eqn:E.
  - apply Nat.eqb_eq in E. unfold path.w in E. lia.
  - apply bufOf_text.
Qed.

Lemma Join_rooted (b add : string) :
  path.Join [String slash b; add]
  = rootedPath (rev (resolve (splitSlash (b ++ "/" ++ add)) [])).
Proof.
  rewrite <- Clean_walks. reflexivity.
Qed.

Lemma trailing_append (s : string) (b : bool) :
  (if b then (s ++ "/")%string else s) = (s ++ (if b then "/" else ""))%string.
Proof. destruct b; [reflexivity | now rewrite append_nil_r]. Qed.

Lemma splitSlash_app_slash (a c : string) :
  splitSlash (a ++ "/" ++ c) = (splitSlash a ++ splitSlash c)%list.
Proof.
  induction a as [|ch a IH]; [reflexivity|].
  simpl. simpl in IH. rewrite IH.
  destruct (Ascii.eqb ch slash); [reflexivity|].
  pose proof (splitSlash_nonempty a) as Hne.
  destruct (splitSlash a); [contradiction | reflexivity].
Qed.

Lemma resolve_app (l1 l2 st : list string) :
  resolve (l1 ++ l2) st = resolve l2 (resolve l1 st).
Proof. unfold resolve. apply fold_left_app. Qed.

Lemma suffixPath_rooted (b add : string) :
  suffixPath (String slash b) add
  = (rootedPath (rev (resolve (splitSlash add) (resolve (splitSlash b) [])))
     ++ (if endsWithSlash add then "/" else ""))%string.
Proof.
  rewrite suffixPath_eq, Join_rooted, splitSlash_app_slash, resolve_app.
  apply trailing_append.
Qed.

Lemma resolve_steps (segs st : list string) :
  resolve segs st = resolve (filter isStep segs) st.
Proof.
  unfold resolve. revert st. induction segs as [|seg segs IH]; intros st; simpl.
  - reflexivity.
  - unfold isStep at 1, walk at 2.
    destruct (String.eqb seg "") eqn:E1; simpl; [apply IH|].
    destruct (String.eqb seg ".") eqn:E2; simpl; [apply IH|].
    rewrite IH. unfold walk at 3. now rewrite E1, E2.
Qed.

Lemma resolve_no_dotdot (segs st : list string) :
  Forall (fun seg => noSlash seg = true) segs ->
  existsb (fun seg => String.eqb seg "..") segs = false ->
  resolve segs st = (rev (filter isName segs) ++ st)%list.
Proof.
  unfold resolve. revert st.
  induction segs as [|seg segs IH]; intros st Hn Hd; simpl; [reflexivity|].
  inversion Hn as [|? ? Hs Hn']; subst.
  simpl in Hd. apply Bool.orb_false_iff in Hd as [Hd1 Hd2].
  rewrite IH by assumption.
  unfold walk, isName. rewrite Hd1, Hs.
  destruct (String.eqb seg ""); simpl; [reflexivity|].
  destruct (String.eqb seg "."); simpl; [reflexivity|].
  now rewrite <- app_assoc.
Qed.

Lemma resolve_base (names : list string) (x : string) (st : list string) :
  Forall (fun s => isName s = true) names ->
  resolve (splitSlash (strings_Join names "/" ++ "/" ++ x)) st
  = resolve (splitSlash x) (rev names ++ st)%list.
Proof.
  revert st. induction names as [|n names IH]; intros st H.
  - reflexivity.
  - inversion H as [|? ? Hn H']; subst.
    pose proof (isName_parts n Hn) as (Hne & Hd & Hdd & Hs).
    assert (Hw : forall st', walk st' n = n :: st').
    { intros st'. unfold walk.
      apply String.eqb_neq in Hne, Hd, Hdd. now rewrite Hne, Hd, Hdd. }
    destruct names as [|m names].
    + cbn [strings_Join]. rewrite splitSlash_app_slash, resolve_app.
      destruct (splitSlash_seg n "" Hs) as [-> _].
      unfold resolve at 2. simpl fold_left. now rewrite Hw.
    + change (strings_Join (n :: m :: names) "/")
        with (n ++ "/" ++ strings_Join (m :: names) "/")%string.
      rewrite !append_assoc.
      change ("/" ++ strings_Join (m :: names) "/" ++ "/" ++ x)%string
        with (String slash (strings_Join (m :: names) "/" ++ "/" ++ x)).
      destruct (splitSlash_seg n (strings_Join (m :: names) "/" ++ "/" ++ x) Hs)
        as [_ ->].
      unfold resolve at 1. cbn [fold_left]. rewrite Hw.
      fold (resolve (splitSlash (strings_Join (m :: names) "/" ++ "/" ++ x)) (n :: st)).
      rewrite IH by assumption.
      cbn [rev]. now rewrite <- !app_assoc.
Qed.

Lemma prefix_app (p x : string) : String.prefix p (p ++ x) = true.
Proof.
  induction p as [|ch p IH]; simpl; [now destruct x|].
  destruct (ascii_dec ch ch); [exact IH | contradiction].
Qed.

Lemma rootedPath_app (a b : list string) :
  exists more, rootedPath (a ++ b) = (rootedPath a ++ more)%string.
Proof.
  unfold rootedPath. induction a as [|n a IH].
  - exists (strings_Join b "/"). reflexivity.
  - destruct IH as (more & IH). injection IH as IH.
    destruct a as [|m a].
    + destruct b as [|m b].
      * exists "". simpl. now rewrite append_nil_r.
      * exists ("/" ++ strings_Join (m :: b) "/")%string. reflexivity.
    + exists more.
      change (strings_Join ((n :: m :: a) ++ b) "/")
        with (n ++ "/" ++ strings_Join ((m :: a) ++ b) "/")%string.
      rewrite IH.
      change (strings_Join (n :: m :: a) "/")
        with (n ++ "/" ++ strings_Join (m :: a) "/")%string.
      simpl. now rewrite !append_assoc.
Qed.

Lemma rootedPath_root (names : list string) :
  Forall (fun s => isName s = true) names ->
  (rootedPath names = "/" <-> names = []).
Proof.
  intros H. split; [|now intros ->].
  destruct names as [|n names]; [reflexivity|].
  inversion H as [|? ? Hn _]; subst. apply isName_parts in Hn as (Hne & _).
  unfold rootedPath. intros E. injection E as E.
  destruct n; [contradiction|]. destruct names; discriminate.
Qed.

(** ** [suffixPath] on any rooted base *)

(** X1.  Under a rooted base, [suffixPath] walks the segments of the base
    and then those of the suffix from the root, and returns the rooted
    path of the names it ends on, followed by a separator when the suffix
    ends in one. *)
Theorem suffixPath_walks (b add : string) :
  suffixPath (String slash b) add
  = (rootedPath (rev (resolve (splitSlash add) (resolve (splitSlash b) [])))
     ++ (if endsWithSlash add then "/" else ""))%string.
Proof.
  rewrite suffixPath_eq, Join_rooted, splitSlash_app_slash, resolve_app.
  apply trailing_append.
Qed.

(** X2.  Under a rooted base the joined path is in normal form: it is the
    rooted path of a list of names, none of them empty, [.] or [..] and
    none with a separator inside.  The path [suffixPath] returns ends in a
    separator exactly when the suffix does or that list is empty. *)
Theorem suffixPath_normal_form (b add : string) :
  exists names,
    Forall (fun s => isName s = true) names
    /\ path.Join [String slash b; add] = rootedPath names
    /\ suffixPath (String slash b) add
       = (rootedPath names ++ (if endsWithSlash add then "/" else ""))%string
    /\ (endsWithSlash (suffixPath (String slash b) add) = true
        <-> endsWithSlash add = true \/ names = []).
Proof.
  exists (rev (resolve (splitSlash (b ++ "/" ++ add)) [])).
  assert (Hn : Forall (fun s => isName s = true)
                      (rev (resolve (splitSlash (b ++ "/" ++ add)) []))).
  { apply Forall_rev, resolve_names; [apply splitSlash_noSlash | constructor]. }
  split; [exact Hn|]. split; [apply Join_rooted|].
  rewrite suffixPath_eq, Join_rooted.
  set (names := rev _) in *.
  split; [destruct (endsWithSlash add); [reflexivity | now rewrite append_nil_r]|].
  destruct (endsWithSlash add) eqn:Ea.
  - split; [now left|]. intros _. apply (endsWithSlash_snoc _ slash).
  - rewrite <- (rootedPath_root names Hn).
    pose proof (Clean_rooted_end (b ++ "/" ++ add)) as Hend.
    rewrite Clean_walks in Hend. fold names in Hend.
    split.
    + intros H. right. destruct Hend as [E | E]; [exact E | congruence].
    + intros [H | ->]; [discriminate | reflexivity].
Qed.

(** X3.  When the base is the rooted path of a list of names and the
    suffix has no [..] segment, the result lies under the base: it is the
    rooted path of the base's names followed by the names of the suffix
    (its segments other than the empty ones and [.]), with the separator
    the suffix ends in. *)
Theorem suffixPath_stays_under_base (baseNames : list string) (add : string) :
  Forall (fun s => isName s = true) baseNames ->
  hasDotDot add = false ->
  suffixPath (rootedPath baseNames) add
  = (rootedPath (baseNames ++ filter isName (splitSlash add))
     ++ (if endsWithSlash add then "/" else ""))%string
  /\ HasPrefix (suffixPath (rootedPath baseNames) add) (rootedPath baseNames) = true.
Proof.
  intros Hb Hd.
  assert (E : suffixPath (rootedPath baseNames) add
              = (rootedPath (baseNames ++ filter isName (splitSlash add))
                 ++ (if endsWithSlash add then "/" else ""))%string).
  { unfold rootedPath at 1. rewrite suffixPath_eq, Join_rooted.
    rewrite (resolve_base baseNames add [] Hb), app_nil_r.
    rewrite (resolve_no_dotdot _ _ (splitSlash_noSlash add) Hd).
    rewrite rev_app_distr, !rev_involutive.
    destruct (endsWithSlash add); [reflexivity | now rewrite append_nil_r]. }
  split; [exact E|].
  rewrite E. unfold HasPrefix.
  destruct (rootedPath_app baseNames (filter isName (splitSlash add))) as (more & ->).
  rewrite append_assoc. apply prefix_app.
Qed.

Lemma suffixPath_stays_under_base_witness :
  suffixPath "/meta-data" "iam//./security-credentials/"
  = "/meta-data/iam/security-credentials/"
  /\ HasPrefix (suffixPath "/meta-data" "iam//./security-credentials/") "/meta-data"
     = true.
Proof.
  exact (suffixPath_stays_under_base ["meta-data"] "iam//./security-credentials/"
           ltac:(repeat constructor) eq_refl).
Defined.

(** X4.  Empty segments and [.] segments of the suffix do not count: two
    suffixes with the same other segments in the same order, both ending
    in a separator or neither, give the same path, and so the same
    metadata and the same dynamic data. *)
Theorem suffixPath_same_steps (b add add' : string) :
  filter isStep (splitSlash add) = filter isStep (splitSlash add') ->
  endsWithSlash add = endsWithSlash add' ->
  suffixPath (String slash b) add = suffixPath (String slash b) add'
  /\ (forall c, Client.GetMetadata c add = Client.GetMetadata c add')
  /\ (forall c, Client.GetDynamicData c add = Client.GetDynamicData c add').
Proof.
  intros Hs He.
  assert (H : forall b0, suffixPath (String slash b0) add
                         = suffixPath (String slash b0) add').
  { intros b0. rewrite !suffixPath_rooted, He.
    now rewrite (resolve_steps (splitSlash add)), Hs, <- resolve_steps. }
  split; [apply H|]. split; intros c.
  - rewrite !GetMetadata_fetched. pose proof (H "meta-data") as H1.
    change (String slash "meta-data") with "/meta-data" in H1. now rewrite H1.
  - rewrite !GetDynamicData_fetched. pose proof (H "dynamic") as H1.
    change (String slash "dynamic") with "/dynamic" in H1. now rewrite H1.
Qed.

Lemma suffixPath_same_steps_witness :
  suffixPath "/meta-data" "iam//./info" = suffixPath "/meta-data" "iam/info"
  /\ (forall c, Client.GetMetadata c "iam//./info" = Client.GetMetadata c "iam/info")
  /\ (forall c, Client.GetDynamicData c "iam//./info"
                = Client.GetDynamicData c "iam/info").
Proof.
  exact (suffixPath_same_steps "meta-data" "iam//./info" "iam/info" eq_refl eq_refl).
Defined.

(** X5.  A suffix that starts with [../] leaves a one-name base behind:
    the result is the path its remaining segments walk to from the root,
    whatever the base is called. *)
Theorem suffixPath_dotdot_undoes_base (b add : string) :
  isName b = true ->
  suffixPath (String slash b) ("../" ++ add)
  = (rootedPath (rev (resolve (splitSlash add) []))
     ++ (if endsWithSlash ("../" ++ add) then "/" else ""))%string.
Proof.
  intros Hb. rewrite suffixPath_rooted.
  pose proof (isName_parts b Hb) as (Hne & Hd & Hdd & Hs).
  destruct (splitSlash_seg b "" Hs) as [-> _].
  change ("../" ++ add)%string with (".." ++ "/" ++ add)%string at 1.
  rewrite splitSlash_app_slash, resolve_app.
  apply String.eqb_neq in Hne, Hd, Hdd.
  unfold resolve at 3. simpl fold_left. unfold walk at 1. rewrite Hne, Hd, Hdd.
  reflexivity.
Qed.

Lemma suffixPath_dotdot_undoes_base_witness :
  suffixPath "/meta-data" "../dynamic/instance-identity/document"
  = "/dynamic/instance-identity/document"
  /\ suffixPath "/dynamic" "../dynamic/instance-identity/document"
     = "/dynamic/instance-identity/document".
Proof.
  split.
  - exact (suffixPath_dotdot_undoes_base "meta-data"
             "dynamic/instance-identity/document" eq_refl).
  - exact (suffixPath_dotdot_undoes_base "dynamic"
             "dynamic/instance-identity/document" eq_refl).
Defined.

(** ** What the fetch operations return *)

(** X6.  [GetMetadata], [GetUserData] and [GetDynamicData] return content
    or an error, never both: with an error the content is empty, and
    without one the content is the body of a response the engine
    accepted. *)
Theorem fetch_content_or_error (c : Client) :
  (forall p s e, Client.GetMetadata c p = (s, Some e) -> s = "")
  /\ (forall s e, Client.GetUserData c = (s, Some e) -> s = "")
  /\ (forall p s e, Client.GetDynamicData c p = (s, Some e) -> s = "")
  /\ (forall p s, Client.GetMetadata c p = (s, None) ->
        exists status,
          roundTrip c (getOp "GetMetadata" (suffixPath "/meta-data" p))
          = aws.Answered status s None)
  /\ (forall s, Client.GetUserData c = (s, None) ->
        exists status,
          roundTrip c (getOp "GetUserData" "/user-data") = aws.Answered status s None)
  /\ (forall p s, Client.GetDynamicData c p = (s, None) ->
        exists status,
          roundTrip c (getOp "GetDynamicData" (suffixPath "/dynamic" p))
          = aws.Answered status s None).
Proof.
  assert (Hf : forall x s,
             (forall e, fetched x = (s, Some e) -> s = "")
             /\ (fetched x = (s, None) -> exists status, x = aws.Answered status s None)).
  { intros [e0 | status body [e0|]] s; simpl; split;
      try (intros e [= <- _]; reflexivity); try discriminate.
    intros [= <-]. now exists status. }
  repeat split.
  - intros p s e. rewrite GetMetadata_fetched. apply Hf.
  - intros s e. unfold Client.GetUserData, NewRequest, Send. simpl.
    destruct (roundTrip c _) as [e0 | status body [e0|]]; simpl;
      try (now intros [= <- _]); try discriminate.
    unfold Client.userDataNotFound. simpl.
    destruct (status =? http_StatusNotFound)%Z; now intros [= <- _].
  - intros p s e. rewrite GetDynamicData_fetched. apply Hf.
  - intros p s. rewrite GetMetadata_fetched. apply Hf.
  - intros s. unfold Client.GetUserData, NewRequest, Send, getOp. simpl.
    destruct (roundTrip c _) as [e0 | status body [e0|]]; simpl; try discriminate.
    + unfold Client.userDataNotFound. simpl.
      destruct (status =? http_StatusNotFound)%Z; discriminate.
    + intros [= <-]. now exists status.
  - intros p s. rewrite GetDynamicData_fetched. apply Hf.
Qed.

Lemma fetch_content_or_error_witness :
  fst (Client.GetUserData (stubService [] 404)) = ""
  /\ exists status,
      roundTrip (stubService [("/user-data", "#!/bin/sh")] 404)
                (getOp "GetUserData" "/user-data")
      = aws.Answered status "#!/bin/sh" None.
Proof.
  split.
  - apply (proj1 (proj2 (fetch_content_or_error (stubService [] 404)))
             _ (awserr.New "NotFoundError" "user-data not found"
                  (Some (awserr.New "EC2MetadataError"
                           "failed to make EC2Metadata request" None)))).
    reflexivity.
  - apply (proj1 (proj2 (proj2 (proj2 (proj2
             (fetch_content_or_error (stubService [("/user-data", "#!/bin/sh")] 404))))))).
    reflexivity.
Defined.

(** X7.  Every operation depends on the service through one [GET]
    operation only: two clients that answer that operation alike give the
    same result. *)
Theorem operations_read_one_endpoint (c1 c2 : Client) :
  (forall p,
      roundTrip c1 (getOp "GetMetadata" (suffixPath "/meta-data" p))
      = roundTrip c2 (getOp "GetMetadata" (suffixPath "/meta-data" p)) ->
      Client.GetMetadata c1 p = Client.GetMetadata c2 p)
  /\ (roundTrip c1 (getOp "GetUserData" "/user-data")
      = roundTrip c2 (getOp "GetUserData" "/user-data") ->
      Client.GetUserData c1 = Client.GetUserData c2)
  /\ (forall p,
      roundTrip c1 (getOp "GetDynamicData" (suffixPath "/dynamic" p))
      = roundTrip c2 (getOp "GetDynamicData" (suffixPath "/dynamic" p)) ->
      Client.GetDynamicData c1 p = Client.GetDynamicData c2 p)
  /\ (roundTrip c1 (getOp "GetDynamicData" "/dynamic/instance-identity/document")
      = roundTrip c2 (getOp "GetDynamicData" "/dynamic/instance-identity/document") ->
      forall decode,
        Client.GetInstanceIdentityDocument decode c1
        = Client.GetInstanceIdentityDocument decode c2)
  /\ (roundTrip c1 (getOp "GetMetadata" "/meta-data/iam/info")
      = roundTrip c2 (getOp "GetMetadata" "/meta-data/iam/info") ->
      forall decode, Client.IAMInfo decode c1 = Client.IAMInfo decode c2)
  /\ (roundTrip c1 (getOp "GetMetadata" "/meta-data/placement/availability-zone")
      = roundTrip c2 (getOp "GetMetadata" "/meta-data/placement/availability-zone") ->
      Client.Region c1 = Client.Region c2)
  /\ (roundTrip c1 (getOp "GetMetadata" "/meta-data/instance-id")
      = roundTrip c2 (getOp "GetMetadata" "/meta-data/instance-id") ->
      Client.Available c1 = Client.Available c2).
Proof.
  repeat split.
  - intros p H. now rewrite !GetMetadata_fetched, H.
  - intros H. unfold Client.GetUserData, NewRequest, Send, getOp in *. simpl.
    now rewrite H.
  - intros p H. now rewrite !GetDynamicData_fetched, H.
  - intros H decode. unfold Client.GetInstanceIdentityDocument.
    rewrite !GetDynamicData_fetched.
    change (suffixPath "/dynamic" "instance-identity/document")
      with "/dynamic/instance-identity/document".
    now rewrite H.
  - intros H decode. unfold Client.IAMInfo. rewrite !GetMetadata_fetched.
    change (suffixPath "/meta-data" "iam/info") with "/meta-data/iam/info".
    now rewrite H.
  - intros H. unfold Client.Region. rewrite !GetMetadata_fetched.
    change (suffixPath "/meta-data" "placement/availability-zone")
      with "/meta-data/placement/availability-zone".
    now rewrite H.
  - intros H. unfold Client.Available. rewrite !GetMetadata_fetched.
    change (suffixPath "/meta-data" "instance-id") with "/meta-data/instance-id".
    now rewrite H.
Qed.

(** Two services that differ only on the user-data give the same region. *)
Lemma operations_read_one_endpoint_witness :
  Client.Region
    (stubService [("/meta-data/placement/availability-zone", "us-west-2a");
                  ("/user-data", "one")] 404)
  = Client.Region
      (stubService [("/meta-data/placement/availability-zone", "us-west-2a");
                    ("/user-data", "two")] 404).
Proof.
  apply (operations_read_one_endpoint
           (stubService [("/meta-data/placement/availability-zone", "us-west-2a");
                         ("/user-data", "one")] 404)
           (stubService [("/meta-data/placement/availability-zone", "us-west-2a");
                         ("/user-data", "two")] 404)).
  reflexivity.
Defined.

(** ** [IAMInfo] and [GetInstanceIdentityDocument], the other way round *)



(** X9.  A record returned without an error is the record the decoder
    made, without error, of a body fetched without error; and an IAM info
    returned without an error has the code [Success]. *)
Theorem success_is_fetched_and_decoded
        (decodeDocument : string -> EC2InstanceIdentityDocument ->
                          EC2InstanceIdentityDocument * option error)
        (decodeIAMInfo : string -> EC2IAMInfo -> EC2IAMInfo * option error)
        (c : Client) :
  (forall doc,
      Client.GetInstanceIdentityDocument decodeDocument c = (doc, None) ->
      exists resp,
        Client.GetDynamicData c "instance-identity/document" = (resp, None)
        /\ decodeDocument resp EC2InstanceIdentityDocument_zero = (doc, None))
  /\ (forall info,
      Client.IAMInfo decodeIAMInfo c = (info, None) ->
      Code info = "Success"
      /\ exists resp,
          Client.GetMetadata c "iam/info" = (resp, None)
          /\ decodeIAMInfo resp EC2IAMInfo_zero = (info, None)).
Proof.
  split.
  - intros doc. unfold Client.GetInstanceIdentityDocument.
    destruct (Client.GetDynamicData c _) as [resp [e1|]]; [discriminate|].
    destruct (decodeDocument resp _) as [d [e2|]] eqn:E; [discriminate|].
    intros [= <-]. now exists resp.
  - intros info. unfold Client.IAMInfo.
    destruct (Client.GetMetadata c _) as [resp [e1|]]; [discriminate|].
    destruct (decodeIAMInfo resp _) as [i [e2|]] eqn:E; [discriminate|].
    destruct (String.eqb_spec (Code i) "Success") as [Hc|Hc]; simpl; [|discriminate].
    intros [= <-]. split; [exact Hc|]. now exists resp.
Qed.

Lemma success_is_fetched_and_decoded_witness :
  Code (fst (Client.IAMInfo json_Decode_IAMInfo (iamInfoService "Success")))
  = "Success".
Proof.
  apply (proj2 (success_is_fetched_and_decoded
                  json_Decode_Document json_Decode_IAMInfo (iamInfoService "Success"))).
  reflexivity.
Defined.

(** ** [Region], the other way round *)

(** X10.  [Region] returns a region without an error exactly when the
    fetched zone is that region and one more byte; in particular a zone of
    one byte gives the empty region without an error.  It returns an error
    exactly when the fetch failed, and then with the empty string. *)
Theorem Region_returns_iff (c : Client) :
  (forall region,
      Client.Region c = Returned (region, None) <->
      exists ch,
        Client.GetMetadata c "placement/availability-zone"
        = (region ++ String ch "", None)%string)
  /\ (Client.Region c = Returned ("", None) <->
      exists ch,
        Client.GetMetadata c "placement/availability-zone" = (String ch "", None))
  /\ (forall s e,
      Client.Region c = Returned (s, Some e) <->
      s = "" /\ exists resp,
          Client.GetMetadata c "placement/availability-zone" = (resp, Some e)).
Proof.
  assert (Hsnoc : forall s : string,
             s = "" \/ exists r ch, s = (r ++ String ch "")%string).
  { induction s as [|a s IH]; [now left|]. right.
    destruct IH as [-> | (r & ch & ->)].
    - now exists "", a.
    - now exists (String a r), ch. }
  assert (Hinj : forall (r1 r2 : string) ch1 ch2,
             (r1 ++ String ch1 "")%string = (r2 ++ String ch2 "")%string -> r1 = r2).
  { induction r1 as [|a r1 IH]; intros [|b r2] ch1 ch2 E; simpl in E.
    - reflexivity.
    - injection E as _ E. destruct r2; discriminate.
    - injection E as _ E. destruct r1; discriminate.
    - injection E as -> E. f_equal. eapply IH, E. }
  assert (H1 : forall region,
             Client.Region c = Returned (region, None) <->
             exists ch,
               Client.GetMetadata c "placement/availability-zone"
               = (region ++ String ch "", None)%string).
  { intros region. unfold Client.Region.
    destruct (Client.GetMetadata c _) as [resp [e|]].
    - split; [discriminate | intros (ch & [=])].
    - destruct (Hsnoc resp) as [-> | (r & ch & ->)].
      + split; [discriminate|]. intros (ch & [= E]). destruct region; discriminate.
      + rewrite sliceTo_drop_last. split.
        * intros [= <-]. now exists ch.
        * intros (ch' & [= E]). now rewrite (Hinj _ _ _ _ E). }
  split; [exact H1|]. split; [exact (H1 "")|].
  intros s e. unfold Client.Region.
  destruct (Client.GetMetadata c _) as [resp [e1|]].
  - split.
    + intros [= <- <-]. split; [reflexivity | now exists resp].
    + intros (-> & r & [= _ ->]). reflexivity.
  - split.
    + destruct (sliceTo resp _); discriminate.
    + intros (_ & r & [=]).
Qed.

Lemma Region_returns_iff_witness :
  Client.Region
    (stubService [("/meta-data/placement/availability-zone", "a")] 404)
  = Returned ("", None).
Proof.
  apply (proj2 (proj1 (proj2 (Region_returns_iff
           (stubService [("/meta-data/placement/availability-zone", "a")] 404))))).
  now exists "a"%char.
Defined.

(** ** The IAM info *)





